(** * webpack-static-pages-plugin: a shallow embedding of [src/index.js]

  The plugin builds static HTML pages inside a webpack compilation: it
  registers every [*.hbs] fragment of a components directory as a
  Handlebars partial, evaluates every [*.js] page script of a pages
  directory in a [vm] context to obtain a page-data function, renders the
  partial named by the page data and emits the result as an asset.

  The embedding follows the source function by function.  JavaScript
  exceptions are an explicit outcome, the mutable host objects (the
  Handlebars partial table, the compilation's assets, errors and file
  dependencies, the logger, the evaluator module's own [exports] object)
  are one explicit store threaded through a state-and-exception monad. *)

From Stdlib Require Import Ascii String ZArith.
From stdpp Require Import gmap strings list pretty.

(** ** Strings: the three regular expressions and [startsWith] *)

Module Str.

(** [s.startsWith(p)]. *)
Definition startsWith (p s : string) : bool := String.prefix p s.

(** The longest prefix of [s] made of characters other than [c]. *)
Fixpoint span_not (c : ascii) (s : string) : string :=
  match s with
  | "" => ""
  | String a r => if decide (a = c) then "" else String a (span_not c r)
  end.

(** [s.match(/^[^c]+/)]: [None] is JavaScript's [null] (no match), and
    [Some m] is the match array, of which the code reads element 0. *)
Definition match_not (c : ascii) (s : string) : option string :=
  match span_not c s with
  | "" => None
  | m => Some m
  end.

(** [s] without its first character, when that character is [c]. *)
Definition eat (c : ascii) (s : string) : option string :=
  match s with
  | "" => None
  | String a r => if decide (a = c) then Some r else None
  end.

(** [/^\.\.?\//] tested against [s]: a dot, an optional second dot, a
    slash. *)
Definition match_relative (s : string) : bool :=
  match eat "." s with
  | None => false
  | Some r =>
      match eat "/" r with
      | Some _ => true
      | None =>
          match eat "." r with
          | None => false
          | Some r' => bool_decide (is_Some (eat "/" r'))
          end
      end
  end.

(** The segments of a path between its ["/"] separators. *)
Fixpoint split_slash_go (cur : string) (s : string) : list string :=
  match s with
  | "" => [String.rev cur]
  | String a r =>
      if decide (a = "/"%char) then String.rev cur :: split_slash_go "" r
      else split_slash_go (String a cur) r
  end.
Definition segments (s : string) : list string := split_slash_go "" s.

Definition endsWith (suf s : string) : bool :=
  String.prefix (String.rev suf) (String.rev s).

(** [s] with the prefix [p] removed, when it has that prefix. *)
Fixpoint strip_prefix (p s : string) : option string :=
  match p, s with
  | "", _ => Some s
  | String a p', String b s' =>
      if decide (a = b) then strip_prefix p' s' else None
  | _, "" => None
  end.

End Str.

(** ** Paths ([path.resolve], [path.dirname], [path.basename]) *)

Module Path.

(** [path.resolve(dir, file)] for an absolute, normalised [dir] and a
    relative [file] with no [.] or [..] segment, which is what the code
    passes (a configured directory and a path returned by [glob]). *)
Definition resolve (dir file : string) : string := dir +:+ "/" +:+ file.

(** The last segment of a path. *)
Definition basename (p : string) : string :=
  List.last (Str.segments p) "".

Fixpoint join_slash (l : list string) : string :=
  match l with
  | [] => ""
  | [s] => s
  | s :: r => s +:+ "/" +:+ join_slash r
  end.

(** [path.dirname(p)]: the path without its last segment; ["/"] for a
    file of the root directory and ["."] for a path with no slash. *)
Definition dirname (p : string) : string :=
  match Str.segments p with
  | [] | [_] => "."
  | segs =>
      match join_slash (removelast segs) with
      | "" => "/"
      | d => d
      end
  end.

End Path.

(** ** JavaScript values and exceptions *)

(** What calling a zero-argument function does: it returns a value or it
    throws one.  Page-data functions are taken to have no other effect. *)
Inductive behaviour (V : Type) : Type :=
| Returns (v : V)
| Raises (v : V).
Arguments Returns {V} v.
Arguments Raises {V} v.

#[warnings="-register-all"]
Inductive value : Type :=
| VUndefined
| VNull
| VBool (b : bool)
| VNum (n : Z)
| VStr (s : string)
| VObject (props : list (string * value))
| VFunction (body : behaviour value).

(** What is thrown.  [Error msg] is [new Error(msg)] whoever threw it, the
    plugin or a page script; [Thrown v] is any other value a script or a
    page function throws. *)
Inductive exn : Type :=
| Error (msg : string)
| TypeError (msg : string)
| SyntaxError (msg : string)
| RangeError (msg : string)
| SystemError (code : string) (path : string)
| ModuleNotFound (request : string)
| Thrown (v : value).

Inductive outcome (A : Type) : Type :=
| Ok (a : A)
| Exc (e : exn).
Arguments Ok {A} a.
Arguments Exc {A} e.

(** [typeof v]. *)
Definition typeof (v : value) : string :=
  match v with
  | VUndefined => "undefined"
  | VNull => "object"
  | VBool _ => "boolean"
  | VNum _ => "number"
  | VStr _ => "string"
  | VObject _ => "object"
  | VFunction _ => "function"
  end.

(** JavaScript's ToBoolean. *)
Definition truthy (v : value) : bool :=
  match v with
  | VUndefined | VNull => false
  | VBool b => b
  | VNum n => negb (n =? 0)%Z
  | VStr s => negb (String.eqb s "")
  | VObject _ | VFunction _ => true
  end.

(** An own property of an object, by key. *)
Fixpoint own (k : string) (props : list (string * value)) : option value :=
  match props with
  | [] => None
  | (k', v) :: r => if String.eqb k k' then Some v else own k r
  end.

(** [obj.k := v] on the property list: replaces the property or appends it. *)
Fixpoint set_own (k : string) (v : value) (props : list (string * value))
  : list (string * value) :=
  match props with
  | [] => [(k, v)]
  | (k', v') :: r =>
      if String.eqb k k' then (k, v) :: r else (k', v') :: set_own k v r
  end.

(** [v.k] for the three keys the plugin itself reads, [component],
    [__esModule] and [default], none of which [Object.prototype] has: a
    TypeError on [undefined] and [null], the own property of an object,
    [undefined] otherwise. *)
Definition get_prop (v : value) (k : string) : outcome value :=
  match v with
  | VUndefined =>
      Exc (TypeError ("Cannot read properties of undefined (reading '" +:+ k +:+ "')"))
  | VNull =>
      Exc (TypeError ("Cannot read properties of null (reading '" +:+ k +:+ "')"))
  | VObject props => Ok (default VUndefined (own k props))
  | _ => Ok VUndefined
  end.

(** ToString, as a template literal applies it.  The source text of a
    function is not modelled: it stands as ["function"]. *)
Definition to_string (v : value) : string :=
  match v with
  | VUndefined => "undefined"
  | VNull => "null"
  | VBool true => "true"
  | VBool false => "false"
  | VNum n => pretty n
  | VStr s => s
  | VObject _ => "[object Object]"
  | VFunction _ => "function"
  end.

(** [f()]. *)
Definition call (f : value) : outcome value :=
  match f with
  | VFunction (Returns v) => Ok v
  | VFunction (Raises v) => Exc (Thrown v)
  | _ => Exc (TypeError "page.fn is not a function")
  end.

(** ** The host store *)

(** An asset of the compilation: its source text and the [created] flag of
    its info object ([false] when the flag is absent). *)
Record asset : Type := Asset { source : string; created : bool }.

Inductive log_entry : Type :=
| Log (msg : string)
| LogError (e : exn).

(** The limiter [pLimit(n)] returns.  [submitted] counts the tasks ever
    handed to it, [activeCount] those running. *)
Record limiter : Type := Limiter {
  limitConcurrency : Z;
  activeCount : nat;
  submitted : nat
}.

(** Everything the plugin can mutate: Handlebars' process-wide partial
    table, the compilation's assets, errors and file dependencies, the
    logger's output (oldest first), the property list of the [exports]
    object of the plugin's own module, which [evaluateCompilationResult]
    shares with every page script, the number of calls of the
    [processAssets] callback, and the limiter [apply] creates. *)
Record store : Type := Store {
  partials : gmap string string;
  assets : gmap string asset;
  errors : list string;
  fileDependencies : gset string;
  logged : list log_entry;
  hostExports : list (string * value);
  callbackCalls : nat;
  limit : option limiter
}.

Definition with_partials (f : gmap string string → gmap string string) (s : store) : store :=
  Store (f (partials s)) (assets s) (errors s) (fileDependencies s) (logged s)
        (hostExports s) (callbackCalls s) (limit s).
Definition with_assets (f : gmap string asset → gmap string asset) (s : store) : store :=
  Store (partials s) (f (assets s)) (errors s) (fileDependencies s) (logged s)
        (hostExports s) (callbackCalls s) (limit s).
Definition with_errors (f : list string → list string) (s : store) : store :=
  Store (partials s) (assets s) (f (errors s)) (fileDependencies s) (logged s)
        (hostExports s) (callbackCalls s) (limit s).
Definition with_fileDependencies (f : gset string → gset string) (s : store) : store :=
  Store (partials s) (assets s) (errors s) (f (fileDependencies s)) (logged s)
        (hostExports s) (callbackCalls s) (limit s).
Definition with_logged (f : list log_entry → list log_entry) (s : store) : store :=
  Store (partials s) (assets s) (errors s) (fileDependencies s) (f (logged s))
        (hostExports s) (callbackCalls s) (limit s).
Definition with_hostExports (f : list (string * value) → list (string * value)) (s : store) : store :=
  Store (partials s) (assets s) (errors s) (fileDependencies s) (logged s)
        (f (hostExports s)) (callbackCalls s) (limit s).
Definition with_callbackCalls (f : nat → nat) (s : store) : store :=
  Store (partials s) (assets s) (errors s) (fileDependencies s) (logged s)
        (hostExports s) (f (callbackCalls s)) (limit s).
Definition with_limit (l : option limiter) (s : store) : store :=
  Store (partials s) (assets s) (errors s) (fileDependencies s) (logged s)
        (hostExports s) (callbackCalls s) l.

(** A fresh process and compilation. *)
Definition empty_store : store := Store ∅ ∅ [] ∅ [] [] 0 None.

(** ** The state-and-exception monad *)

(** A computation runs on a store and ends with a value or a thrown
    exception; the store it leaves is kept in both cases, as JavaScript keeps
    the effects that happened before a throw. *)
Definition M (A : Type) : Type := store → outcome A * store.

Definition ret {A} (a : A) : M A := λ s, (Ok a, s).
Definition throw {A} (e : exn) : M A := λ s, (Exc e, s).
Definition bind {A B} (m : M A) (k : A → M B) : M B :=
  λ s, match m s with
       | (Ok a, s') => k a s'
       | (Exc e, s') => (Exc e, s')
       end.
(** [try { m } catch (e) { h e }]. *)
Definition try_catch {A} (m : M A) (h : exn → M A) : M A :=
  λ s, match m s with
       | (Ok a, s') => (Ok a, s')
       | (Exc e, s') => h e s'
       end.
Definition lift {A} (o : outcome A) : M A := λ s, (o, s).
Definition gets {A} (f : store → A) : M A := λ s, (Ok (f s), s).
Definition modify (f : store → store) : M unit := λ s, (Ok tt, f s).

Declare Scope js_scope.
Delimit Scope js_scope with js.
Notation "'let*' x ':=' m 'in' k" := (bind m (λ x, k))
  (at level 10, x name, m at level 100, k at level 200) : js_scope.
Notation "m '>>' k" := (bind m (λ _, k))
  (at level 100, k at level 200, right associativity) : js_scope.
Local Open Scope js_scope.

(** [xs.map(f)]: the callback runs on each element in order and the first
    exception ends the loop. *)
Fixpoint mapM {A B} (f : A → M B) (xs : list A) : M (list B) :=
  match xs with
  | [] => ret []
  | x :: r => let* y := f x in let* ys := mapM f r in ret (y :: ys)
  end.

(** [xs.forEach(f)]. *)
Fixpoint forEach {A} (f : A → M unit) (xs : list A) : M unit :=
  match xs with
  | [] => ret tt
  | x :: r => f x >> forEach f r
  end.

(** The final store and the result of a computation. *)
Definition exec {A} (m : M A) (s : store) : store := snd (m s).
Definition result {A} (m : M A) (s : store) : outcome A := fst (m s).

(** ** Collaborators: logger, webpack compilation, p-limit *)

(** [logger.log(msg)] and [logger.error(e)]. *)
Definition log (msg : string) : M unit :=
  modify (with_logged (λ l, l ++ [Log msg])).
Definition logError (e : exn) : M unit :=
  modify (with_logged (λ l, l ++ [LogError e])).

(** [compilation.getAsset(name)]: [None] is [undefined]. *)
Definition getAsset (name : string) : M (option asset) :=
  gets (λ s, assets s !! name).

(** [compilation.emitAsset(name, source, info)].  webpack stores a new
    asset; on a name that is taken it reports a conflict and overwrites when
    the sources differ, and merges the info objects when they are equal. *)
Definition emitAsset (name : string) (src : string) (info_created : bool) : M unit :=
  let* old := getAsset name in
  match old with
  | None => modify (with_assets (insert name (Asset src info_created)))
  | Some a =>
      if String.eqb (source a) src
      then modify (with_assets (insert name (Asset src (created a || info_created))))
      else
        modify (with_errors (λ l, l ++
          ["Conflict: Multiple assets emit different content to the same filename " +:+ name]))
        >> modify (with_assets (insert name (Asset src info_created)))
  end.

(** [compilation.fileDependencies.add(path)]. *)
Definition addDependency (path : string) : M unit :=
  modify (with_fileDependencies (λ d, {[path]} ∪ d)).

(** [callback()], the continuation webpack hands to a [tapAsync] handler. *)
Definition callback : M unit := modify (with_callbackCalls S).

(** [pLimit(n)]: a limiter with no task, or a TypeError when [n] is not a
    positive integer. *)
Definition pLimit (n : Z) : outcome limiter :=
  if (1 <=? n)%Z then Ok (Limiter n 0 0)
  else Exc (TypeError "Expected `concurrency` to be a number from 1 and up").

(** ** Collaborator: Handlebars

    The fragment of the template language the pages use: literal text,
    [{{name}}] (the HTML-escaped value of a field of the data) and
    [{{> name}}] (the partial registered as [name], rendered against the same
    data).  Blocks, helpers, triple braces and dotted paths lie outside it. *)

Module Handlebars.

Inductive token : Type :=
| Text (s : string)
| Mustache (name : string)
| Partial (name : string).

Fixpoint trim_left (s : string) : string :=
  match s with
  | String " " r => trim_left r
  | _ => s
  end.
Definition trim (s : string) : string :=
  String.rev (trim_left (String.rev (trim_left s))).

(** What stands between [{{] and [}}]. *)
Definition tag (body : string) : token :=
  match trim body with
  | String ">" r => Partial (trim r)
  | n => Mustache n
  end.

(** The tokens of a template; [None] when a [{{] is never closed.  [cur]
    holds the characters of the current token, last first. *)
Fixpoint scan (inTag : bool) (cur : string) (s : string) : option (list token) :=
  match s with
  | "" => if inTag then None else Some [Text (String.rev cur)]
  | String a r =>
      match r with
      | "" => if inTag then None else Some [Text (String.rev (String a cur))]
      | String b r' =>
          if inTag then
            if decide (a = "}"%char ∧ b = "}"%char)
            then cons (tag (String.rev cur)) <$> scan false "" r'
            else scan true (String a cur) r
          else
            if decide (a = "{"%char ∧ b = "{"%char)
            then cons (Text (String.rev cur)) <$> scan true "" r'
            else scan false (String a cur) r
      end
  end.
Definition parse (template : string) : option (list token) := scan false "" template.

(** The double quote character, code 34. *)
Definition double_quote : ascii := ascii_of_nat 34.

(** [Handlebars.escapeExpression] on a string. *)
Fixpoint escape (s : string) : string :=
  match s with
  | "" => ""
  | String a r =>
      (if decide (a = "&"%char) then "&amp;"
       else if decide (a = "<"%char) then "&lt;"
       else if decide (a = ">"%char) then "&gt;"
       else if decide (a = double_quote) then "&quot;"
       else if decide (a = "'"%char) then "&#x27;"
       else if decide (a = "`"%char) then "&#x60;"
       else if decide (a = "="%char) then "&#x3D;"
       else String a "") +:+ escape r
  end.

(** The text [{{name}}] puts out for a value that is not a function. *)
Definition show (v : value) : string :=
  match v with
  | VUndefined | VNull => ""
  | v => escape (to_string v)
  end.

(** The text [{{name}}] puts out for the field [name] of [data]: a function
    found there is called and its result shown. *)
Definition mustache (data : value) (name : string) : outcome string :=
  match data with
  | VObject props =>
      match default VUndefined (own name props) with
      | VFunction (Returns v) => Ok (show v)
      | VFunction (Raises e) => Exc (Thrown e)
      | v => Ok (show v)
      end
  | _ => Ok ""
  end.

(** The depth of nested partial calls the JavaScript stack allows. *)
Definition stack_depth : nat := 1024.

(** Rendering of a token list against [data], [depth] bounding the nesting
    of partials. *)
Fixpoint render (depth : nat) (table : gmap string string) (data : value)
    (toks : list token) {struct depth} : outcome string :=
  (fix go (toks : list token) : outcome string :=
     match toks with
     | [] => Ok ""
     | t :: r =>
         let here :=
           match t with
           | Text s => Ok s
           | Mustache n => mustache data n
           | Partial n =>
               match depth with
               | 0 => Exc (RangeError "Maximum call stack size exceeded")
               | S depth' =>
                   match table !! n with
                   | None => Exc (Error ("The partial " +:+ n +:+ " could not be found"))
                   | Some src =>
                       match parse src with
                       | None => Exc (Error "Parse error")
                       | Some ts => render depth' table data ts
                       end
                   end
               end
           end in
         match here with
         | Exc e => Exc e
         | Ok h => match go r with
                   | Exc e => Exc e
                   | Ok t => Ok (h +:+ t)
                   end
         end
     end) toks.

(** [Handlebars.registerPartial(name, content)]. *)
Definition registerPartial (name content : string) : M unit :=
  modify (with_partials (insert name content)).

(** [Handlebars.compile(template)(data)]: the template is parsed and
    rendered when the compiled function is called, against the partial table
    of that moment. *)
Definition compile (template : string) (data : value) : M string :=
  let* table := gets partials in
  match parse template with
  | None => throw (Error "Parse error")
  | Some toks => lift (render stack_depth table data toks)
  end.

End Handlebars.

(** ** Page scripts

    The statements of a page script the evaluator can tell apart.  An
    expression statement and an assignment leave their value as the
    script's completion value; a declaration leaves none. *)

Inductive expr : Type :=
| ELit (v : value)               (* a literal, object or function expression *)
| ERequire (request : string)    (* require(request) *)
| EModuleExports                 (* module.exports *)
| EExportsProp (k : string)      (* exports.k *)
| ESPP                           (* SPP *)
| EFilename                      (* __filename *)
| EDirname.                      (* __dirname *)

Inductive stmt : Type :=
| SExpr (e : expr)                          (* e; *)
| SSetModuleExports (e : expr)              (* module.exports = e; *)
| SSetExportsProp (k : string) (e : expr)   (* exports.k = e; *)
| SVar (e : expr)                           (* var x = e; *)
| SThrow (e : expr)                         (* throw e; *)
| SThrowError (msg : string).               (* throw new Error(msg); *)

(** ** The world outside the process: files and installed modules *)

(** An entry of the disk: its absolute path, its text, the program
    [vm.Script] makes of that text ([None] when the text is not a script: a
    SyntaxError), and the code of the system error [fs.readFileSync] fails
    with on it: [None] for a regular file that can be read, ["EISDIR"] for a
    directory, ["EACCES"] for a file the process may not read. *)
Record file : Type := Entry {
  path : string;
  text : string;
  script : option (list stmt);
  readError : option string
}.

(** A regular file that can be read. *)
Definition File (path text : string) (script : option (list stmt)) : file :=
  Entry path text script None.

(** The entries of the disk, directories among them, in the order [glob]
    lists them; the host module loader: [hostRequire id request] is what
    [require(request)] of the module with identity [id] returns, [None] when
    it finds no module; and the members every plain object inherits:
    [objectPrototype k] is the member [k] of [Object.prototype], [None] when
    it has none of that name. *)
Record world : Type := Host {
  files : list file;
  hostRequire : string → string → option value;
  objectPrototype : string → option value
}.

(** The function members of [Object.prototype], each with what calling it
    with no argument, as the rendering loop calls a page function, gives.
    [valueOf] returns its receiver there, the page object [{ name, fn }]:
    the two fields are not known here and stand as [undefined]; neither is
    the [component] the rendering loop reads. *)
Definition object_prototype_functions : list (string * value) :=
  [ ("constructor", VFunction (Returns (VObject [])));
    ("toString", VFunction (Returns (VStr "[object Object]")));
    ("toLocaleString", VFunction (Returns (VStr "[object Object]")));
    ("valueOf", VFunction (Returns (VObject [("name", VUndefined); ("fn", VUndefined)])));
    ("hasOwnProperty", VFunction (Returns (VBool false)));
    ("isPrototypeOf", VFunction (Returns (VBool false)));
    ("propertyIsEnumerable", VFunction (Returns (VBool false)));
    ("__lookupGetter__", VFunction (Returns VUndefined));
    ("__lookupSetter__", VFunction (Returns VUndefined));
    ("__defineGetter__",
       VFunction (Raises (VObject [("message", VStr "Object.prototype.__defineGetter__: Expecting function")])));
    ("__defineSetter__",
       VFunction (Raises (VObject [("message", VStr "Object.prototype.__defineSetter__: Expecting function")]))) ].

(** [Object.prototype] itself: its function members, and [__proto__], which
    read on a plain object is [Object.prototype]. *)
Definition object_prototype (k : string) : option value :=
  if String.eqb k "__proto__" then Some (VObject object_prototype_functions)
  else own k object_prototype_functions.

(** A world of the given entries and modules, with the standard
    [Object.prototype]. *)
Definition World (files : list file) (hostRequire : string → string → option value)
  : world :=
  Host files hostRequire object_prototype.

(** [fs.readFileSync(p, 'utf8')], here returning the whole entry: it throws
    the system error of an entry that cannot be read, and [ENOENT] where
    there is no entry. *)
Definition readFileSync (w : world) (p : string) : M file :=
  match List.find (λ f, String.eqb (path f) p) (files w) with
  | Some f =>
      match readError f with
      | None => ret f
      | Some code => throw (SystemError code p)
      end
  | None => throw (SystemError "ENOENT" p)
  end.

(** Whether [rel] matches the pattern [**/*.ext]: no segment is empty or
    begins with a dot (glob's default, [dot: false]) and the last one ends
    in [.ext]. *)
Definition glob_match (ext rel : string) : bool :=
  forallb (λ seg, negb (String.eqb seg "") && negb (Str.startsWith "." seg))
          (Str.segments rel)
  && Str.endsWith ("." +:+ ext) (Path.basename rel).

(** [glob.sync('**/*.ext', { cwd })]: the paths, relative to [cwd], of the
    entries under [cwd] that match.  No [nodir] option is passed, so a
    directory whose name matches is listed like a file. *)
Definition glob_sync (ext cwd : string) (w : world) : list string :=
  omap (λ f, match Str.strip_prefix (cwd +:+ "/") (path f) with
             | Some rel => if glob_match ext rel then Some rel else None
             | None => None
             end) (files w).

(** [mod.require(request)] for [mod = new Module(id)]. *)
Definition mod_require (w : world) (id request : string) : M value :=
  match hostRequire w id request with
  | Some v => ret v
  | None => throw (ModuleNotFound request)
  end.

(** ** The plugin *)

(** The constructor's fields; [concurrency] is [options.options.concurrency],
    [None] when the option is absent. *)
Record plugin : Type := Plugin {
  componentsDir : string;
  pagesDir : string;
  destDir : string;
  concurrency : option Z
}.

(** [this.options.concurrency || 100]. *)
Definition concurrency_or_default (p : plugin) : Z :=
  match concurrency p with
  | Some n => if (n =? 0)%Z then 100%Z else n
  | None => 100%Z
  end.

(** *** evaluateCompilationResult *)

(** The [require] function put in the sandbox (lines 139-146): [file] is the
    page file, whose [Module] object the loader is bound to. *)
Definition sandbox_require (w : world) (file request : string) : M value :=
  if Str.match_relative request
  then mod_require w file (Path.dirname file +:+ "/" +:+ request)
  else mod_require w file request.

(** The object the sandbox binds to the name [exports] (line 138): the
    variable [exports] of [index.js], the plugin module's own exports object,
    which lives in the store.  The per-file module is [modExports] below. *)
Definition sandbox_exports : M (list (string * value)) := gets hostExports.

(** [exports.k]: the own property of the [exports] object, else the member
    of that name the object inherits from [Object.prototype], else
    [undefined]. *)
Definition read_exports (w : world) (k : string) : M value :=
  let* props := sandbox_exports in
  match own k props with
  | Some v => ret v
  | None => ret (default VUndefined (objectPrototype w k))
  end.

Definition eval_expr (w : world) (file : string) (modExports : value) (e : expr)
  : M value :=
  match e with
  | ELit v => ret v
  | ERequire request => sandbox_require w file request
  | EModuleExports => ret modExports
  | EExportsProp k => read_exports w k
  | ESPP => ret (VBool true)
  | EFilename => ret (VStr file)
  | EDirname => ret (VStr (Path.dirname file))
  end.

(** One statement, from the pair of [module.exports] of the per-file module
    and the completion value so far, to the next pair. *)
Definition exec_stmt (w : world) (file : string) (st : value * value) (s : stmt)
  : M (value * value) :=
  let '(modExports, completion) := st in
  match s with
  | SExpr e =>
      let* v := eval_expr w file modExports e in ret (modExports, v)
  | SSetModuleExports e =>
      let* v := eval_expr w file modExports e in ret (v, v)
  | SSetExportsProp k e =>
      let* v := eval_expr w file modExports e in
      modify (with_hostExports (set_own k v)) >> ret (modExports, v)
  | SVar e =>
      let* _ := eval_expr w file modExports e in ret (modExports, completion)
  | SThrow e =>
      let* v := eval_expr w file modExports e in throw (Thrown v)
  | SThrowError msg => throw (Error msg)
  end.

Fixpoint exec_stmts (w : world) (file : string) (st : value * value)
    (prog : list stmt) : M (value * value) :=
  match prog with
  | [] => ret st
  | s :: r => let* st' := exec_stmt w file st s in exec_stmts w file st' r
  end.

(** [vmScript.runInContext(vmContext)]: the program runs with a fresh
    [module.exports = {}]; the pair of the final [module.exports] and the
    script's completion value. *)
Definition run_script (w : world) (file : string) (prog : list stmt)
  : M (value * value) :=
  exec_stmts w file (VObject [], VUndefined) prog.

(** [runInContext] returns the completion value. *)
Definition runInContext (w : world) (file : string) (prog : list stmt) : M value :=
  let* st := run_script w file prog in ret (snd st).

(** [new vm.Script(source, { filename })]. *)
Definition compile_script (f : file) : M (list stmt) :=
  match script f with
  | Some prog => ret prog
  | None => throw (SyntaxError (path f))
  end.

(** Lines 155-157: one level of default-export unwrapping. *)
Definition unwrap_default (newSource : value) : M value :=
  if String.eqb (typeof newSource) "object" then
    let* esModule := lift (get_prop newSource "__esModule") in
    if truthy esModule then
      let* dflt := lift (get_prop newSource "default") in
      if truthy dflt then ret dflt else ret newSource
    else ret newSource
  else ret newSource.

(** Lines 125-160. *)
Definition evaluateCompilationResult (w : world) (file : string) : M value :=
  if String.eqb file "" then throw (Error "The file is empty")
  else
    let* source := readFileSync w file in
    let* vmScript := compile_script source in
    let* newSource := runInContext w file vmScript in
    let* newSource := unwrap_default newSource in
    if String.eqb (typeof newSource) "function" then ret newSource
    else throw (Error "Source not produce an HTML").

(** *** apply *)

(** Line 27: what [apply] does before it taps the hooks. *)
Definition apply (p : plugin) : M unit :=
  let* l := lift (pLimit (concurrency_or_default p)) in
  modify (with_limit (Some l)).

(** Lines 42-49, the callback of the components loop. *)
Definition registerComponent (p : plugin) (w : world) (file : string) : M unit :=
  let* f := readFileSync w (Path.resolve (componentsDir p) file) in
  let content := text f in
  if String.eqb content "" then ret tt
  else
    match Str.match_not "/" file with
    | None => throw (TypeError "Cannot read properties of null (reading '0')")
    | Some name =>
        Handlebars.registerPartial name content
        >> log ("Loaded component: " +:+ name)
    end.

(** An element of the array [pages]: [undefined] for a skipped file, [null]
    for one whose evaluation threw, or the object [{ name, fn }]. *)
Inductive page_slot : Type :=
| SlotUndefined
| SlotNull
| SlotPage (name : string) (fn : value).

(** Lines 52-66, the callback of the pages loop. *)
Definition readPage (p : plugin) (w : world) (file : string) : M page_slot :=
  if Str.startsWith "_" file then ret SlotUndefined
  else
    try_catch
      (let fileAbs := Path.resolve (pagesDir p) file in
       let* fn := evaluateCompilationResult w fileAbs in
       match Str.match_not "." file with
       | None => throw (TypeError "Cannot read properties of null (reading '0')")
       | Some name => ret (SlotPage name fn)
       end)
      (λ e, logError e >> ret SlotNull).

(** An element of [pagesRend] that is not [undefined]. *)
Record rendered : Type := Rendered {
  filename : string;
  absoluteFilename : string;
  html : string
}.

(** Lines 69-78, the callback of the rendering loop. *)
Definition renderPage (p : plugin) (page : page_slot) : M (option rendered) :=
  match page with
  | SlotUndefined | SlotNull => ret None
  | SlotPage name fn =>
      let* pageData := lift (call fn) in
      let* component := lift (get_prop pageData "component") in
      let build := Handlebars.compile ("{{> " +:+ to_string component +:+ "}}") in
      let* out := build pageData in
      ret (Some (Rendered (name +:+ ".html")
                          (Path.resolve (destDir p) name +:+ ".html")
                          out))
  end.

(** Lines 81-90, the callback of the emitting loop. *)
Definition writePage (page : option rendered) : M unit :=
  match page with
  | None => ret tt
  | Some page =>
      let* existingAsset := getAsset (filename page) in
      match existingAsset with
      | Some _ => ret tt
      | None => emitAsset (filename page) (html page) true
      end
  end.

(** Lines 52-90 on the list of page files [glob.sync] returned: the pages
    loop, the rendering loop and the emitting loop. *)
Definition buildPages (p : plugin) (w : world) (pageFiles : list string) : M unit :=
  let* pages := mapM (readPage p w) pageFiles in
  let* pagesRend := mapM (renderPage p) pages in
  forEach writePage pagesRend.

(** Lines 38-95, the [processAssets] handler.  Its result is the fate of the
    promise the async function returns: [Ok] fulfilled, [Exc] rejected. *)
Definition processAssets (p : plugin) (w : world) : M unit :=
  log "Starting creating static pages...."
  >> (let* _ := mapM (registerComponent p w) (glob_sync "hbs" (componentsDir p) w) in
      buildPages p w (glob_sync "js" (pagesDir p) w)
      >> log "Finished creating pages"
      >> callback).

(** Lines 109-116, the [afterCompile] handler. *)
Definition afterCompile (p : plugin) (w : world) : M unit :=
  forEach (λ file, addDependency (Path.resolve (pagesDir p) file))
          (glob_sync "js" (pagesDir p) w)
  >> forEach (λ file, addDependency (Path.resolve (componentsDir p) file))
             (glob_sync "hbs" (componentsDir p) w).

(** A build pass on a fresh process: [apply], then the two handlers; the
    second runs only when the first called back. *)
Definition build (p : plugin) (w : world) : M unit :=
  apply p >> processAssets p w >> afterCompile p w.

(** *** The taps on [afterCompile] *)

(** Line 109 taps [compiler.hooks.afterCompile] inside the callback of
    [thisCompilation] (line 29), so every compilation of the compiler adds
    one more tap of the same handler: with [taps] compilations begun, the
    hook calls the handler [taps] times, one after the other. *)
Fixpoint afterCompileHook (taps : nat) (p : plugin) (w : world) : M unit :=
  match taps with
  | 0 => ret tt
  | S n => afterCompile p w >> afterCompileHook n p w
  end.

(** *** The stats printer *)

(** Lines 98-107, the printer tapped for [asset.info.created]: [green] and
    [formatFlag] are the helpers webpack hands it, [None] is [undefined]
    (nothing is printed). *)
Definition printCreated (green formatFlag : string → string) (created : bool)
  : option string :=
  if created then Some (green (formatFlag "created")) else None.

(** ** Vocabulary of the specification *)

(** A value is callable when [typeof] says ["function"]. *)
Definition callable (v : value) : bool := String.eqb (typeof v) "function".

(** The default-export unwrap as the specification words it: a result that
    looks like a transpiled ES module wrapper (an [__esModule] flag with a
    [default] property) stands for its [default]. *)
Definition unwrapped (v : value) : value :=
  match v with
  | VObject props =>
      match own "__esModule" props, own "default" props with
      | Some flag, Some dflt => if truthy flag && truthy dflt then dflt else v
      | _, _ => v
      end
  | _ => v
  end.

(** A statement that leaves no completion value. *)
Definition is_declaration (s : stmt) : bool :=
  match s with
  | SVar _ => true
  | _ => false
  end.


(** The page file's base name up to its first dot. *)
Definition base_stem (file : string) : option string :=
  Str.match_not "." (Path.basename file).

(** The text of an asset of a store, when there is one. *)
Definition asset_text (s : store) (name : string) : option string :=
  source <$> assets s !! name.

(** Whether the logger was given an error. *)
Definition logged_error (s : store) : bool :=
  existsb (λ l, match l with LogError _ => true | Log _ => false end) (logged s).

(** The asset the emitting loop stores for a rendered page. *)
Definition created_asset (r : rendered) : asset := Asset (html r) true.

(** The first page of a rendered list, [null]s skipped, with a file name. *)
Definition first_named (name : string) (pagesRend : list (option rendered))
  : option rendered :=
  List.find (λ r, String.eqb (filename r) name) (omap id pagesRend).

(** [keeps proj m]: running [m] never changes the component [proj] of the
    store, whether it returns or throws. *)
Definition keeps {A X : Type} (proj : store → X) (m : M A) : Prop :=
  ∀ s, proj (snd (m s)) = proj s.

(** The expression whose value a statement leaves as the completion value
    of the script, for a statement that leaves one. *)
Definition leaves_value (s : stmt) : option expr :=
  match s with
  | SExpr e | SSetModuleExports e | SSetExportsProp _ e => Some e
  | SVar _ | SThrow _ | SThrowError _ => None
  end.

(** Whether the character [c] occurs in [s]. *)
Fixpoint has_char (c : ascii) (s : string) : bool :=
  match s with
  | "" => false
  | String a r => bool_decide (a = c) || has_char c r
  end.

(** A slot of the array [pages] that stands for a failed page: [null]. *)
Definition slot_failed (slot : page_slot) : bool :=
  match slot with
  | SlotNull => true
  | _ => false
  end.

(** ** Sample sites *)

Module Site.

Definition plugin_default : plugin :=
  Plugin "/site/components" "/site/pages" "/site/dist" None.

Definition no_modules : string → string → option value := λ _ _, None.

(** A loader that knows one module, by its absolute path. *)
Definition one_module : string → string → option value :=
  λ _ request,
    if String.eqb request "/site/pages/./_helper" then Some (VObject [("util", VNum 1)])
    else None.

(** [function () { return { component: 'card', title: 'Hi' }; }]. *)
Definition home_fn : value :=
  VFunction (Returns (VObject [("component", VStr "card"); ("title", VStr "Hi")])).
Definition home_src : string :=
  "module.exports = function () { return { component: 'card', title: 'Hi' }; };".


(** [function () { throw 'boom'; }]. *)
Definition broken_fn : value := VFunction (Raises (VStr "boom")).
Definition broken_src : string :=
  "module.exports = function () { throw 'boom'; };".


Definition card_text : string := "<div>{{title}}</div>".

(** A page file under the pages root whose script is [module.exports = fn;]. *)
Definition page (rel src : string) (fn : value) : file :=
  File ("/site/pages/" +:+ rel) src (Some [SSetModuleExports (ELit fn)]).

(** The worked example as the specification lays it out: [card.hbs]
    directly under the components root. *)
Definition flat : world :=
  World [ File "/site/components/card.hbs" card_text None;
          page "home.js" home_src home_fn ] no_modules.

(** The same site with the fragment in a directory of its own. *)
Definition nested : world :=
  World [ File "/site/components/card/card.hbs" card_text None;
          page "home.js" home_src home_fn ] no_modules.

(** [about.js] is a good page; the function [broken.js] exports throws when
    it is called. *)
Definition with_broken_fn : world :=
  World [ File "/site/components/card/card.hbs" card_text None;
          page "about.js" home_src home_fn;
          page "broken.js" broken_src broken_fn ] no_modules.

(** [about.js] is a good page; the script of [broken.js] itself throws. *)
Definition with_broken_script : world :=
  World [ File "/site/components/card/card.hbs" card_text None;
          page "about.js" home_src home_fn;
          File "/site/pages/broken.js" "throw 'boom';"
               (Some [SThrow (ELit (VStr "boom"))]) ] no_modules.

(** Ten good pages, [p0.js] to [p9.js], built with [concurrency: 1]. *)
Definition plugin_serial : plugin :=
  Plugin "/site/components" "/site/pages" "/site/dist" (Some 1%Z).
Definition ten_pages : world :=
  World (File "/site/components/card/card.hbs" card_text None
         :: ((λ i : nat, page ("p" +:+ pretty i +:+ ".js") home_src home_fn) <$> seq 0 10))
        no_modules.

(** The page [home.js] alone, with a given text and script, next to the
    module of [one_module]. *)
Definition site_of (src : string) (prog : list stmt) : world :=
  World [ File "/site/pages/home.js" src (Some prog) ] one_module.

(** A page script whose export assignment is followed by an expression
    statement. *)
Definition trailing_expression_src : string :=
  "module.exports = function () { return { component: 'card', title: 'Hi' }; }; require('./_helper');".
Definition trailing_expression : list stmt :=
  [SSetModuleExports (ELit home_fn); SExpr (ERequire "./_helper")].

(** A page script whose export assignment is followed by a declaration. *)
Definition trailing_declaration_src : string :=
  "module.exports = function () { return { component: 'card', title: 'Hi' }; }; var helper = require('./_helper');".
Definition trailing_declaration : list stmt :=
  [SSetModuleExports (ELit home_fn); SVar (ERequire "./_helper")].



(** A page whose script exports a number. *)
Definition exports_number : world :=
  World [ File "/site/pages/answer.js" "module.exports = 42;"
               (Some [SSetModuleExports (ELit (VNum 42))]) ] no_modules.


(** A page in a subdirectory of the pages root. *)
Definition with_subdirectory : world :=
  World [ File "/site/components/card/card.hbs" card_text None;
          page "sub/page.js" home_src home_fn ] no_modules.

(** Files next to the fragments and pages that are neither. *)
Definition with_other_files : world :=
  World [ File "/site/components/card/card.hbs" card_text None;
          File "/site/components/card/card.scss" ".card { }" None;
          File "/site/pages/data.json" "{ }" None;
          page "home.js" home_src home_fn ] no_modules.

End Site.

(** ** More sample sites *)

Module More.

(** Two fragments in one directory, and an empty one in a directory of its
    own. *)
Definition two_fragments : world :=
  World [ File "/site/components/card/alt.hbs" "<p>{{title}}</p>" None;
          File "/site/components/card/card.hbs" "<div>{{title}}</div>" None;
          File "/site/components/empty/empty.hbs" "" None ] Site.no_modules.

(** A directory named [card.hbs] among the fragments, beside the page of
    [Site.flat]: reading it fails with [EISDIR]. *)
Definition fragment_directory : world :=
  World [ Entry "/site/components/card.hbs" "" None (Some "EISDIR");
          File "/site/components/card.hbs/inner.txt" "x" None;
          Site.page "home.js" Site.home_src Site.home_fn ] Site.no_modules.


(** A transpiled ES module: [exports.__esModule = true; exports.default = ...]
    read back as the object [module.exports = { __esModule: true, default: home_fn }]. *)
Definition es_wrapper : list (string * value) :=
  [("__esModule", VBool true); ("default", Site.home_fn)].
Definition es_module : world :=
  World [ File "/site/pages/home.js"
               "module.exports = { __esModule: true, default: function () { return { component: 'card', title: 'Hi' }; } };"
               (Some [SSetModuleExports (ELit (VObject es_wrapper))]) ] Site.no_modules.

(** [module.exports = null;]. *)
Definition exports_null : world :=
  World [ File "/site/pages/home.js" "module.exports = null;"
               (Some [SSetModuleExports (ELit VNull)]) ] Site.no_modules.

(** A compilation that already has [home.html], without the [created]
    flag, and two rendered pages, one of them with that name. *)
Definition store_with_home : store :=
  with_assets (insert "home.html" (Asset "<p>old</p>" false)) empty_store.
Definition rendered_pair : list (option rendered) :=
  [ Some (Rendered "home.html" "/site/dist/home.html" "<div>Hi</div>");
    Some (Rendered "about.html" "/site/dist/about.html" "<div>Ho</div>") ].

(** Stand-ins for webpack's [green] and [formatFlag]. *)
Definition green (x : string) : string := "<green>" +:+ x +:+ "</green>".
Definition formatFlag (x : string) : string := "[" +:+ x +:+ "]".

(** A page file that only declares: [var page = require('./_helper');]. *)
Definition declares_only : world :=
  World [ File "/site/pages/home.js" "var page = require('./_helper');"
               (Some [SVar (ERequire "./_helper")]) ] Site.one_module.

(** [function () { }], which returns [undefined]. *)
Definition returns_nothing : value := VFunction (Returns VUndefined).

(** A compilation begun with the partial [banner] in the table, left by an
    earlier pass whose fragment is no longer on disk. *)
Definition store_with_banner : store :=
  with_partials (insert "banner" "<h1>{{title}}</h1>") empty_store.

(** [exports.toString;], a member every object inherits. *)
Definition reads_toString : world :=
  World [ File "/site/pages/home.js" "exports.toString;"
               (Some [SExpr (EExportsProp "toString")]) ] Site.no_modules.

(** [throw new Error('The file is empty');]. *)
Definition throws_file_is_empty : world :=
  World [ File "/site/pages/home.js" "throw new Error('The file is empty');"
               (Some [SThrowError "The file is empty"]) ] Site.no_modules.

End More.

(** * Properties *)

(** ** The helpers on concrete inputs *)

Example startsWith_underscore :
  Str.startsWith "_" "_helper.js" = true ∧ Str.startsWith "_" "shared/_helper.js" = false.
Proof. split; reflexivity. Qed.

Example match_first_segment :
  Str.match_not "/" "card/card.hbs" = Some "card"
  ∧ Str.match_not "/" "card.hbs" = Some "card.hbs".
Proof. split; reflexivity. Qed.

Example match_up_to_dot :
  Str.match_not "." "home.js" = Some "home"
  ∧ Str.match_not "." "sub/home.page.js" = Some "sub/home"
  ∧ Str.match_not "." ".hidden.js" = None.
Proof. repeat split; reflexivity. Qed.

Example match_relative_samples :
  Str.match_relative "./helper" = true
  ∧ Str.match_relative "../shared/helper" = true
  ∧ Str.match_relative "lodash" = false
  ∧ Str.match_relative ".../x" = false
  ∧ Str.match_relative "/abs/x" = false.
Proof. repeat split; reflexivity. Qed.

Example path_samples :
  Path.dirname "/site/pages/sub/home.js" = "/site/pages/sub"
  ∧ Path.dirname "/home.js" = "/"
  ∧ Path.basename "shared/_helper.js" = "_helper.js"
  ∧ Path.resolve "/site/pages" "sub/home.js" = "/site/pages/sub/home.js".
Proof. repeat split; reflexivity. Qed.

Example glob_match_samples :
  glob_match "js" "home.js" = true
  ∧ glob_match "js" "sub/_helper.js" = true
  ∧ glob_match "js" "data.json" = false
  ∧ glob_match "js" ".cache/home.js" = false
  ∧ glob_match "hbs" "card/card.hbs" = true.
Proof. repeat split; reflexivity. Qed.

Example handlebars_parse :
  Handlebars.parse "{{> card}}" = Some [Handlebars.Text ""; Handlebars.Partial "card"; Handlebars.Text ""]
  ∧ Handlebars.parse "<div>{{title}}</div>"
    = Some [Handlebars.Text "<div>"; Handlebars.Mustache "title"; Handlebars.Text "</div>"]
  ∧ Handlebars.parse "<div>{{title" = None.
Proof. repeat split; reflexivity. Qed.

Example handlebars_escapes :
  Handlebars.render 1 ∅ (VObject [("title", VStr "a < b & c")])
    [Handlebars.Text "<p>"; Handlebars.Mustache "title"; Handlebars.Text "</p>"]
  = Ok "<p>a &lt; b &amp; c</p>".
Proof. reflexivity. Qed.

(** ** Strings and paths *)

Lemma append_assoc (a b c : string) : (a +:+ b) +:+ c = a +:+ (b +:+ c).
Proof.
  induction a as [|x a IH]; [reflexivity|].
  change (String x ((a +:+ b) +:+ c) = String x (a +:+ (b +:+ c))).
  by rewrite IH.
Qed.

Lemma strip_prefix_Some (p s rel : string) :
  Str.strip_prefix p s = Some rel → s = p +:+ rel.
Proof.
  revert s. induction p as [|a p IH]; intros s H.
  - destruct s; simpl in H; by inversion H.
  - destruct s as [|b s]; [discriminate|]. simpl in H.
    case_decide; [subst b|discriminate].
    change (String a s = String a (p +:+ rel)). f_equal. by apply IH.
Qed.

Lemma strip_prefix_append (p rel : string) :
  Str.strip_prefix p (p +:+ rel) = Some rel.
Proof.
  induction p as [|a p IH]; [by destruct rel|].
  change (Str.strip_prefix (String a p) (String a (p +:+ rel)) = Some rel).
  simpl. by rewrite decide_True.
Qed.

(** A path [glob.sync] returned, resolved against its root, is the path of
    a file of the world. *)
Lemma glob_sync_resolve (ext cwd : string) (w : world) (rel : string) :
  rel ∈ glob_sync ext cwd w ↔
  glob_match ext rel = true ∧ ∃ f, f ∈ files w ∧ path f = Path.resolve cwd rel.
Proof.
  unfold glob_sync, Path.resolve. rewrite list_elem_of_omap. split.
  - intros (f & Hf & Hm).
    destruct (Str.strip_prefix (cwd +:+ "/") (path f)) as [r|] eqn:Hs; [|done].
    destruct (glob_match ext r) eqn:Hg; [|done].
    injection Hm as ->. split; [done|]. exists f. split; [done|].
    apply strip_prefix_Some in Hs. by rewrite Hs, append_assoc.
  - intros (Hg & f & Hf & Hp). exists f. split; [done|].
    rewrite Hp, <- append_assoc, strip_prefix_append. by rewrite Hg.
Qed.

Lemma prefix_cons (a b : ascii) (p s : string) :
  String.prefix (String a p) (String b s)
  = if decide (b = a) then String.prefix p s else false.
Proof.
  cbn [String.prefix]. destruct (ascii_dec a b) as [->|Hn].
  - by rewrite decide_True.
  - by rewrite decide_False by congruence.
Qed.

Lemma prefix_nil_l (s : string) : String.prefix "" s = true.
Proof. by destruct s. Qed.


(** ** Loops *)

Section Loops.
Context {A B : Type}.
Implicit Types (f : A → M B) (g : A → M unit).

Lemma mapM_app f (l1 l2 : list A) (s : store) :
  mapM f (l1 ++ l2) s =
  match mapM f l1 s with
  | (Ok ys, s1) =>
      match mapM f l2 s1 with
      | (Ok zs, s2) => (Ok (ys ++ zs), s2)
      | (Exc e, s2) => (Exc e, s2)
      end
  | (Exc e, s1) => (Exc e, s1)
  end.
Proof.
  revert s. induction l1 as [|x l1 IH]; intros s; simpl.
  - unfold bind, ret. by destruct (mapM f l2 s) as [[?|?] ?].
  - unfold bind, ret. destruct (f x s) as [[y|e] s0]; [|done].
    rewrite IH.
    destruct (mapM f l1 s0) as [[ys|e] s1]; [|done].
    by destruct (mapM f l2 s1) as [[zs|e] s2].
Qed.


(** A loop whose body never throws runs to its end. *)
Lemma mapM_total f (l : list A) (s : store) :
  (∀ x s, ∃ y s', f x s = (Ok y, s')) →
  ∃ ys s', mapM f l s = (Ok ys, s') ∧ length ys = length l.
Proof.
  intros Hf. revert s. induction l as [|x l IH]; intros s; simpl.
  - by exists [], s.
  - unfold bind. destruct (Hf x s) as (y & s0 & ->).
    destruct (IH s0) as (ys & s1 & -> & Hlen).
    exists (y :: ys), s1. simpl. by rewrite Hlen.
Qed.

End Loops.

(** ** The emitting loop *)

Lemma writePage_null (s : store) : writePage None s = (Ok tt, s).
Proof. reflexivity. Qed.

(** One page: skipped when the name is taken, emitted with [created = true]
    when it is free. *)
Lemma writePage_some (page : rendered) (s : store) :
  writePage (Some page) s =
  match assets s !! filename page with
  | Some _ => (Ok tt, s)
  | None => (Ok tt, with_assets (insert (filename page) (created_asset page)) s)
  end.
Proof.
  unfold writePage, emitAsset, getAsset, bind, gets, modify, created_asset.
  destruct (assets s !! filename page) as [a|] eqn:Ha; [done|].
  by rewrite Ha.
Qed.

Lemma first_named_cons_None (name : string) (l : list (option rendered)) :
  first_named name (None :: l) = first_named name l.
Proof. reflexivity. Qed.

Lemma first_named_cons_Some (name : string) (page : rendered) (l : list (option rendered)) :
  first_named name (Some page :: l) =
  if decide (filename page = name) then Some page else first_named name l.
Proof.
  unfold first_named. simpl.
  destruct (String.eqb_spec (filename page) name); by case_decide.
Qed.

(** The emitting loop over a whole list: it never throws, reports no
    conflict, keeps every asset that was there, and gives a free name to the
    first page of the list that asks for it. *)
Lemma emitting_loop (pagesRend : list (option rendered)) (s : store) :
  result (forEach writePage pagesRend) s = Ok tt
  ∧ errors (exec (forEach writePage pagesRend) s) = errors s
  ∧ ∀ name,
      assets (exec (forEach writePage pagesRend) s) !! name =
      match assets s !! name with
      | Some existing => Some existing
      | None => created_asset <$> first_named name pagesRend
      end.
Proof.
  unfold result, exec. revert s.
  induction pagesRend as [|[page|] l IH]; intros s.
  - simpl. split_and!; [done..|]. intros name. by destruct (assets s !! name).
  - cbn [forEach]. unfold bind. rewrite writePage_some.
    destruct (assets s !! filename page) as [a|] eqn:Ha.
    + destruct (IH s) as (Hr & He & Ha'). split_and!; [done..|].
      intros name. rewrite Ha', first_named_cons_Some.
      destruct (assets s !! name) eqn:Hn; [done|].
      rewrite decide_False; [done|]. intros Heq. rewrite Heq in Ha. congruence.
    + destruct (IH (with_assets (insert (filename page) (created_asset page)) s))
        as (Hr & He & Ha').
      split_and!; [done..|].
      intros name. rewrite Ha', first_named_cons_Some. cbn [assets with_assets].
      destruct (decide (filename page = name)) as [Heq|Hne].
      * subst name. by rewrite lookup_insert_eq, Ha.
      * by rewrite lookup_insert_ne.
  - cbn [forEach]. unfold bind. rewrite writePage_null.
    destruct (IH s) as (Hr & He & Ha'). split_and!; [done..|].
    intros name. by rewrite Ha', first_named_cons_None.
Qed.

(** C6.  A non-null rendered page whose file name is already an asset of
    the compilation is skipped entirely: the store is left as it was, so the
    existing asset keeps its content and no error is raised.  Otherwise an
    asset with that file name, the page's HTML and [created = true] is
    stored.  Over a whole pass, every asset that was there is unchanged and
    a free name goes to the first page that produces it. *)
Theorem C6_existing_asset_wins (pagesRend : list (option rendered)) (page : rendered)
    (s : store) :
  writePage (Some page) s =
    (Ok tt, match assets s !! filename page with
            | Some _ => s
            | None => with_assets (insert (filename page) (Asset (html page) true)) s
            end)
  ∧ result (forEach writePage pagesRend) s = Ok tt
  ∧ errors (exec (forEach writePage pagesRend) s) = errors s
  ∧ ∀ name,
      assets (exec (forEach writePage pagesRend) s) !! name =
      match assets s !! name with
      | Some existing => Some existing
      | None => created_asset <$> first_named name pagesRend
      end.
Proof.
  split; [|apply emitting_loop].
  rewrite writePage_some. by destruct (assets s !! filename page).
Qed.

(** ** The dependency tracker *)

Lemma forEach_addDependency (g : string → string) (l : list string) (s : store) :
  forEach (λ file, addDependency (g file)) l s =
  (Ok tt, with_fileDependencies (λ d, list_to_set (g <$> l) ∪ d) s).
Proof.
  revert s. induction l as [|x l IH]; intros s.
  - simpl. unfold ret, with_fileDependencies. destruct s; simpl.
    do 2 f_equal. by rewrite (left_id_L ∅ (∪)).
  - cbn [forEach]. unfold bind, addDependency at 1, modify. rewrite IH.
    unfold with_fileDependencies. destruct s; simpl. do 2 f_equal.
    by rewrite (assoc_L (∪)), (comm_L (∪) (list_to_set _)).
Qed.

(** The set [afterCompile] leaves: what was recorded, the resolved paths of
    the [*.js] files under the pages root and of the [*.hbs] files under the
    components root. *)
Lemma afterCompile_dependencies (p : plugin) (w : world) (s : store) :
  afterCompile p w s =
  (Ok tt,
   with_fileDependencies
     (λ d, list_to_set (Path.resolve (componentsDir p) <$> glob_sync "hbs" (componentsDir p) w)
           ∪ (list_to_set (Path.resolve (pagesDir p) <$> glob_sync "js" (pagesDir p) w) ∪ d))
     s).
Proof.
  unfold afterCompile, bind. rewrite !forEach_addDependency.
  by destruct s.
Qed.

(** A scanned file is in the set [afterCompile] leaves. *)
Lemma scanned_file_recorded (p : plugin) (w : world) (f : file) (rel : string)
    (d : gset string) :
  f ∈ files w →
  (path f = Path.resolve (pagesDir p) rel ∧ glob_match "js" rel = true)
  ∨ (path f = Path.resolve (componentsDir p) rel ∧ glob_match "hbs" rel = true) →
  path f ∈ list_to_set (Path.resolve (componentsDir p) <$> glob_sync "hbs" (componentsDir p) w)
           ∪ (list_to_set (Path.resolve (pagesDir p) <$> glob_sync "js" (pagesDir p) w) ∪ d).
Proof.
  intros Hf [[Hp Hg]|[Hp Hg]]; rewrite Hp.
  - apply elem_of_union_r, elem_of_union_l, elem_of_list_to_set.
    apply list_elem_of_fmap. exists rel. split; [done|].
    apply glob_sync_resolve. split; [done|]. by exists f.
  - apply elem_of_union_l, elem_of_list_to_set.
    apply list_elem_of_fmap. exists rel. split; [done|].
    apply glob_sync_resolve. split; [done|]. by exists f.
Qed.

(** C9, amended.  The [afterCompile] handler never fails, and after it ran
    (so after every build pass that completed) the recorded file-dependency
    set contains the absolute path of every file under the pages root that
    matches [**/*.js] and of every file under the components root that
    matches [**/*.hbs], whatever the file holds and whatever the page build
    made of it: a page that fails to evaluate and a helper with an
    underscore name are recorded like any other. *)
Theorem C9_scanned_files_recorded (p : plugin) (w : world) (s : store) (f : file)
    (rel : string) :
  f ∈ files w →
  (path f = Path.resolve (pagesDir p) rel ∧ glob_match "js" rel = true)
  ∨ (path f = Path.resolve (componentsDir p) rel ∧ glob_match "hbs" rel = true) →
  result (afterCompile p w) s = Ok tt
  ∧ path f ∈ fileDependencies (exec (afterCompile p w) s)
  ∧ (result (build p w) s = Ok tt →
     path f ∈ fileDependencies (exec (build p w) s)).
Proof.
  intros Hf Hcase. unfold result, exec. rewrite afterCompile_dependencies.
  split; [done|]. split.
  - cbn [snd fileDependencies with_fileDependencies].
    by eapply scanned_file_recorded.
  - unfold build, bind.
    destruct (apply p s) as [[[]|e] s1]; [|done].
    destruct (processAssets p w s1) as [[[]|e] s2]; [|done].
    intros _. rewrite afterCompile_dependencies.
    cbn [snd fileDependencies with_fileDependencies].
    by eapply scanned_file_recorded.
Qed.

(** At [Site.with_broken_script]: [broken.js] is logged as failed and is a
    recorded dependency all the same. *)
Lemma C9_scanned_files_recorded_witness :
  logged_error (exec (build Site.plugin_default Site.with_broken_script) empty_store) = true
  ∧ result (build Site.plugin_default Site.with_broken_script) empty_store = Ok tt
  ∧ "/site/pages/broken.js"
    ∈ fileDependencies (exec (build Site.plugin_default Site.with_broken_script) empty_store).
Proof.
  split; [vm_compute; reflexivity|].
  split; [vm_compute; reflexivity|].
  refine (proj2 (proj2 (C9_scanned_files_recorded Site.plugin_default Site.with_broken_script empty_store
           (File "/site/pages/broken.js" "throw 'boom';" (Some [SThrow (ELit (VStr "boom"))]))
           "broken.js" _ _)) _).
  - apply list_elem_of_In. simpl. auto.
  - left. split; vm_compute; reflexivity.
  - vm_compute. reflexivity.
Defined.

(** The claim as written fails at [Site.with_other_files]: [data.json] is a
    file under the pages root and [card.scss] one under the components
    root, and neither is a recorded dependency after a complete pass. *)
Lemma C9_counterexample :
  let s := exec (build Site.plugin_default Site.with_other_files) empty_store in
  result (build Site.plugin_default Site.with_other_files) empty_store = Ok tt
  ∧ callbackCalls s = 1
  ∧ (∃ f, f ∈ files Site.with_other_files
          ∧ path f = Path.resolve (pagesDir Site.plugin_default) "data.json"
          ∧ path f ∉ fileDependencies s)
  ∧ (∃ f, f ∈ files Site.with_other_files
          ∧ path f = Path.resolve (componentsDir Site.plugin_default) "card/card.scss"
          ∧ path f ∉ fileDependencies s).
Proof.
  cbv zeta. split; [vm_compute; reflexivity|]. split; [vm_compute; reflexivity|].
  split.
  - exists (File "/site/pages/data.json" "{ }" None).
    split; [apply list_elem_of_In; simpl; auto|].
    split; [reflexivity|].
    apply (bool_decide_unpack _). vm_compute. exact I.
  - exists (File "/site/components/card/card.scss" ".card { }" None).
    split; [apply list_elem_of_In; simpl; auto|].
    split; [reflexivity|].
    apply (bool_decide_unpack _). vm_compute. exact I.
Qed.

(** ** What a computation leaves alone *)

Section Keeps.
Context {X : Type} (proj : store → X).

Lemma keeps_ret {A} (a : A) : keeps proj (ret a).
Proof. done. Qed.
Lemma keeps_throw {A} (e : exn) : keeps proj (@throw A e).
Proof. done. Qed.
Lemma keeps_lift {A} (o : outcome A) : keeps proj (lift o).
Proof. done. Qed.
Lemma keeps_gets {A} (f : store → A) : keeps proj (gets f).
Proof. done. Qed.
Lemma keeps_modify (f : store → store) :
  (∀ s, proj (f s) = proj s) → keeps proj (modify f).
Proof. intros Hf s. apply Hf. Qed.
Lemma keeps_bind {A B} (m : M A) (k : A → M B) :
  keeps proj m → (∀ a, keeps proj (k a)) → keeps proj (bind m k).
Proof.
  intros Hm Hk s. unfold bind. specialize (Hm s).
  destruct (m s) as [[a|e] s']; [|done].
  simpl in Hm. by rewrite Hk.
Qed.
Lemma keeps_try_catch {A} (m : M A) (h : exn → M A) :
  keeps proj m → (∀ e, keeps proj (h e)) → keeps proj (try_catch m h).
Proof.
  intros Hm Hh s. unfold try_catch. specialize (Hm s).
  destruct (m s) as [[a|e] s']; [done|].
  simpl in Hm. by rewrite Hh.
Qed.
Lemma keeps_mapM {A B} (f : A → M B) (l : list A) :
  (∀ x, keeps proj (f x)) → keeps proj (mapM f l).
Proof.
  intros Hf. induction l as [|x l IH]; simpl; [apply keeps_ret|].
  apply keeps_bind; [done|]. intros y.
  apply keeps_bind; [done|]. intros ys. apply keeps_ret.
Qed.
Lemma keeps_forEach {A} (f : A → M unit) (l : list A) :
  (∀ x, keeps proj (f x)) → keeps proj (forEach f l).
Proof.
  intros Hf. induction l as [|x l IH]; simpl; [apply keeps_ret|].
  by apply keeps_bind.
Qed.

End Keeps.

(** Splits a computation into its primitive steps; what is left are the
    [modify] steps, to be checked against the component at hand. *)
Ltac keeps_steps :=
  repeat first
    [ apply keeps_ret | apply keeps_throw | apply keeps_lift | apply keeps_gets
    | apply keeps_bind | apply keeps_try_catch | apply keeps_mapM
    | apply keeps_forEach
    | match goal with
      | |- ∀ _, _ => intro
      | |- keeps _ (match ?x with _ => _ end) => destruct x
      end ].
Ltac keeps_all :=
  keeps_steps; try (apply keeps_modify; intros []; reflexivity).

Section KeepsSteps.
Context {X : Type} (proj : store → X).
(** The component is not the [exports] object of the plugin module. *)
Hypothesis not_hostExports : ∀ f s, proj (with_hostExports f s) = proj s.
(** The component is not the logger's output. *)
Hypothesis not_logged : ∀ f s, proj (with_logged f s) = proj s.

Lemma keeps_exec_stmts (w : world) (file : string) (prog : list stmt)
    (st : value * value) :
  keeps proj (exec_stmts w file st prog).
Proof.
  revert st. induction prog as [|s prog IH]; intros st.
  - apply keeps_ret.
  - cbn [exec_stmts]. apply keeps_bind; [|done].
    unfold exec_stmt, eval_expr, sandbox_require, mod_require, sandbox_exports.
    keeps_steps; by apply keeps_modify.
Qed.

(** Evaluating a page script touches nothing but the [exports] object. *)
Lemma keeps_evaluateCompilationResult (w : world) (file : string) :
  keeps proj (evaluateCompilationResult w file).
Proof.
  unfold evaluateCompilationResult, readFileSync, compile_script, runInContext,
    unwrap_default, run_script.
  keeps_steps; apply keeps_exec_stmts.
Qed.

(** The pages loop touches nothing but that object and the logger. *)
Lemma keeps_readPage (p : plugin) (w : world) (file : string) :
  keeps proj (readPage p w file).
Proof.
  unfold readPage, logError. keeps_steps;
    try apply keeps_evaluateCompilationResult; by apply keeps_modify.
Qed.

(** The rendering loop touches nothing at all. *)
Lemma keeps_renderPage (p : plugin) (page : page_slot) :
  keeps proj (renderPage p page).
Proof. unfold renderPage, Handlebars.compile. keeps_steps. Qed.

End KeepsSteps.

(** ** Failure isolation *)

(** The pages loop catches whatever the evaluation of a page throws: its
    callback always returns. *)
Lemma readPage_total (p : plugin) (w : world) (file : string) (s : store) :
  ∃ slot s', readPage p w file s = (Ok slot, s').
Proof.
  unfold readPage. destruct (Str.startsWith "_" file); [by eexists _, _|].
  unfold try_catch.
  match goal with |- context [match ?m s with _ => _ end] => destruct (m s) as [[slot|e] s'] end.
  - by eexists _, _.
  - unfold bind, logError, modify, ret. by eexists _, _.
Qed.

(** The rendering loop has no such guard: a page-data function that throws
    ends the loop, with the store as it was. *)
Lemma renderPage_raises (p : plugin) (name : string) (v : value) (s : store) :
  renderPage p (SlotPage name (VFunction (Raises v))) s = (Exc (Thrown v), s).
Proof. reflexivity. Qed.

Lemma renderPage_store (p : plugin) (page : page_slot) (s : store) :
  snd (renderPage p page s) = s.
Proof. apply (keeps_renderPage (λ s, s)). Qed.

Lemma rendering_loop_raises (p : plugin) (pages : list page_slot) (name : string)
    (v : value) (s : store) :
  SlotPage name (VFunction (Raises v)) ∈ pages →
  ∃ e, mapM (renderPage p) pages s = (Exc e, s).
Proof.
  induction pages as [|page pages IH]; intros Hin; [by apply elem_of_nil in Hin|].
  cbn [mapM]. unfold bind.
  apply elem_of_cons in Hin as [<-|Hin]; [rewrite renderPage_raises; by eexists|].
  pose proof (renderPage_store p page s) as Hs.
  destruct (renderPage p page s) as [[r|e] s0]; simpl in Hs; subst s0; [|by eexists].
  destruct (IH Hin) as [e ->]. by eexists.
Qed.

(** ** The limiter *)

(** [this.options.concurrency || 100]: 100 when the option is absent. *)
Lemma concurrency_default (c d e : string) :
  concurrency_or_default (Plugin c d e None) = 100%Z.
Proof. reflexivity. Qed.

(** No step of the [processAssets] handler touches the limiter. *)
Lemma processAssets_keeps_limit (p : plugin) (w : world) :
  keeps limit (processAssets p w).
Proof.
  unfold processAssets, buildPages, registerComponent, readFileSync, log, callback,
    Handlebars.registerPartial.
  keeps_steps;
    try (apply keeps_readPage; reflexivity);
    try (apply keeps_renderPage);
    try (unfold writePage, getAsset, emitAsset; keeps_steps);
    by apply keeps_modify.
Qed.

(** C1, at the failing input [Site.with_broken_fn] (a good page [about.js]
    and [broken.js], whose exported function throws when called): the
    exception leaves the rendering loop and the handler; the promise is
    rejected, the callback is not called, nothing is logged as an error and
    no asset is emitted, not even the good page's.  On the sibling path, at
    [Site.with_broken_script] (the script of [broken.js] itself throws), the
    exception is caught and logged, the good page is emitted and the callback
    is called. *)
Theorem C1_throwing_page_function_rejects_pass :
  let s := exec (build Site.plugin_default Site.with_broken_fn) empty_store in
  let s' := exec (build Site.plugin_default Site.with_broken_script) empty_store in
  result (build Site.plugin_default Site.with_broken_fn) empty_store
    = Exc (Thrown (VStr "boom"))
  ∧ callbackCalls s = 0
  ∧ logged_error s = false
  ∧ asset_text s "about.html" = None
  ∧ asset_text s "broken.html" = None
  ∧ result (build Site.plugin_default Site.with_broken_script) empty_store = Ok tt
  ∧ callbackCalls s' = 1
  ∧ logged_error s' = true
  ∧ asset_text s' "about.html" = Some "<div>Hi</div>"
  ∧ asset_text s' "broken.html" = None.
Proof. cbv zeta. repeat split; vm_compute; reflexivity. Qed.

(** C2, at the failing input [Site.ten_pages] built with [concurrency: 1]:
    [apply] creates the limiter with that cap (100 when the option is
    absent), the pass builds and emits the ten pages, and the limiter was
    handed no task; no step of the handler touches it, whatever the site. *)
Theorem C2_limiter_never_used :
  let s := exec (build Site.plugin_serial Site.ten_pages) empty_store in
  (∀ c d e, concurrency_or_default (Plugin c d e None) = 100%Z)
  ∧ result (build Site.plugin_serial Site.ten_pages) empty_store = Ok tt
  ∧ size (assets s) = 10
  ∧ limit s = Some (Limiter 1 0 0)
  ∧ ∀ p w s0, limit (exec (processAssets p w) s0) = limit s0.
Proof.
  cbv zeta. split_and!; [done|vm_compute; reflexivity..|].
  intros p w s0. apply processAssets_keeps_limit.
Qed.

(** ** Fragment names and the worked example *)

(** A fragment with content is registered under the first segment of its
    path relative to the components root. *)
Lemma registerComponent_name (p : plugin) (w : world) (rel name : string)
    (f : file) (s : store) :
  readFileSync w (Path.resolve (componentsDir p) rel) s = (Ok f, s) →
  text f ≠ "" →
  Str.match_not "/" rel = Some name →
  partials (exec (registerComponent p w rel) s) !! name = Some (text f).
Proof.
  intros Hread Htext Hname. unfold exec, registerComponent, bind. rewrite Hread.
  destruct (String.eqb_spec (text f) ""); [done|]. rewrite Hname.
  unfold Handlebars.registerPartial, log, modify, bind. simpl.
  apply lookup_insert_eq.
Qed.

(** C7, amended.  With the fragment stored as [card/card.hbs] under the
    components root and [home.js] exporting a function that returns
    [{component: 'card', title: 'Hi'}], the build registers the fragment
    under the first segment of its relative path, [card], and emits the one
    asset [home.html], with content [<div>Hi</div>] and [created = true]. *)
Theorem C7_worked_example :
  let s := exec (build Site.plugin_default Site.nested) empty_store in
  glob_sync "hbs" (componentsDir Site.plugin_default) Site.nested = ["card/card.hbs"]
  ∧ Str.match_not "/" "card/card.hbs" = Some "card"
  ∧ partials s !! "card" = Some "<div>{{title}}</div>"
  ∧ result (build Site.plugin_default Site.nested) empty_store = Ok tt
  ∧ callbackCalls s = 1
  ∧ assets s !! "home.html" = Some (Asset "<div>Hi</div>" true)
  ∧ size (assets s) = 1.
Proof. cbv zeta. repeat split; vm_compute; reflexivity. Qed.

(** The claim as written fails at [Site.flat], the layout it describes:
    [card.hbs] directly under the components root is registered under its
    whole file name, [card.hbs]; the partial [card] the page asks for is not
    found, the handler is rejected and [home.html] is not emitted. *)
Lemma C7_counterexample :
  let s := exec (build Site.plugin_default Site.flat) empty_store in
  glob_sync "hbs" (componentsDir Site.plugin_default) Site.flat = ["card.hbs"]
  ∧ Str.match_not "/" "card.hbs" = Some "card.hbs"
  ∧ partials s !! "card.hbs" = Some "<div>{{title}}</div>"
  ∧ partials s !! "card" = None
  ∧ result (build Site.plugin_default Site.flat) empty_store
    = Exc (Error "The partial card could not be found")
  ∧ assets s !! "home.html" = None.
Proof. cbv zeta. repeat split; vm_compute; reflexivity. Qed.

(** ** Page names *)

(** C8, amended.  For every page file the pages loop turns into a page (not
    excluded, evaluated without error), the page name is the file's path
    relative to the pages root up to its first dot; for a file directly
    under the pages root that is its base name up to the first dot.  The
    rendering loop makes of the page at most one output, and names it
    [<pageName>.html]. *)
Theorem C8_page_name (p : plugin) (w : world) (file name : string) (fn : value)
    (s s' : store) :
  readPage p w file s = (Ok (SlotPage name fn), s') →
  Str.match_not "." file = Some name
  ∧ (Path.basename file = file → base_stem file = Some name)
  ∧ ∀ s1 r s2, renderPage p (SlotPage name fn) s1 = (Ok r, s2) →
      ∃ out, r = Some (Rendered (name +:+ ".html")
                                (Path.resolve (destDir p) name +:+ ".html") out).
Proof.
  intros Hread.
  assert (Str.match_not "." file = Some name) as Hname.
  { unfold readPage in Hread. destruct (Str.startsWith "_" file); [discriminate|].
    unfold try_catch, bind in Hread.
    destruct (evaluateCompilationResult w (Path.resolve (pagesDir p) file) s)
      as [[fn'|e] s0]; [|discriminate].
    destruct (Str.match_not "." file) as [name'|]; [|discriminate].
    unfold ret in Hread. congruence. }
  split; [done|]. split.
  - intros Hbase. unfold base_stem. by rewrite Hbase.
  - intros s1 r s2. unfold renderPage, bind, lift.
    destruct (call fn) as [pageData|e]; [|discriminate].
    destruct (get_prop pageData "component") as [component|e]; [|discriminate].
    match goal with |- context [match ?m s1 with _ => _ end] => destruct (m s1) as [[out|e] s3] end;
      [|discriminate].
    unfold ret. intros [= <- <-]. by exists out.
Qed.

(** At [home.js] of [Site.nested]. *)
Lemma C8_page_name_witness :
  readPage Site.plugin_default Site.nested "home.js" empty_store
    = (Ok (SlotPage "home" Site.home_fn), empty_store)
  ∧ Str.match_not "." "home.js" = Some "home"
  ∧ base_stem "home.js" = Some "home"
  ∧ renderPage Site.plugin_default (SlotPage "home" Site.home_fn)
      (with_partials (insert "card" Site.card_text) empty_store)
    = (Ok (Some (Rendered "home.html" "/site/dist/home.html" "<div>Hi</div>")),
       with_partials (insert "card" Site.card_text) empty_store).
Proof.
  assert (readPage Site.plugin_default Site.nested "home.js" empty_store
          = (Ok (SlotPage "home" Site.home_fn), empty_store)) as Hread
    by (vm_compute; reflexivity).
  destruct (C8_page_name Site.plugin_default Site.nested "home.js" "home" Site.home_fn
              empty_store empty_store Hread) as (Hname & Hbase & Hout).
  split; [exact Hread|]. split; [exact Hname|].
  split; [apply Hbase; vm_compute; reflexivity|].
  vm_compute. reflexivity.
Defined.

(** The claim as written fails at [Site.with_subdirectory]: the page file
    [sub/page.js] has base name [page.js], so the claim names its output
    [page.html]; the page name is [sub/page] and the asset [sub/page.html]. *)
Lemma C8_counterexample :
  let s := exec (build Site.plugin_default Site.with_subdirectory) empty_store in
  glob_sync "js" (pagesDir Site.plugin_default) Site.with_subdirectory = ["sub/page.js"]
  ∧ base_stem "sub/page.js" = Some "page"
  ∧ readPage Site.plugin_default Site.with_subdirectory "sub/page.js" empty_store
    = (Ok (SlotPage "sub/page" Site.home_fn), empty_store)
  ∧ result (build Site.plugin_default Site.with_subdirectory) empty_store = Ok tt
  ∧ assets s !! "page.html" = None
  ∧ assets s !! "sub/page.html" = Some (Asset "<div>Hi</div>" true).
Proof. cbv zeta. repeat split; vm_compute; reflexivity. Qed.

(** ** The underscore filter *)





(** ** The evaluator *)

(** Evaluating an expression leaves the store as it is. *)
Lemma eval_expr_store (w : world) (file : string) (mx : value) (e : expr) (s : store) :
  snd (eval_expr w file mx e s) = s.
Proof.
  unfold eval_expr, sandbox_require, mod_require, read_exports, sandbox_exports.
  destruct e; try reflexivity.
  - destruct (Str.match_relative request);
      match goal with |- context [hostRequire ?a ?b ?c] => by destruct (hostRequire a b c) end.
  - unfold bind, gets. by destruct (own k (hostExports s)).
Qed.

(** An expression throws nothing but a failed [require]. *)
Lemma eval_expr_exn (w : world) (file : string) (mx : value) (e : expr) (s s' : store)
    (x : exn) :
  eval_expr w file mx e s = (Exc x, s') → ∃ request, x = ModuleNotFound request.
Proof.
  unfold eval_expr, sandbox_require, mod_require, read_exports, sandbox_exports.
  destruct e; try discriminate.
  - destruct (Str.match_relative request);
      match goal with |- context [hostRequire ?a ?b ?c] => destruct (hostRequire a b c) end;
      try discriminate; intros [= <- _]; by eexists.
  - unfold bind, gets. by destruct (own k (hostExports s)).
Qed.

Lemma exec_stmts_app (w : world) (file : string) (st : value * value)
    (l1 l2 : list stmt) (s : store) :
  exec_stmts w file st (l1 ++ l2) s =
  match exec_stmts w file st l1 s with
  | (Ok st1, s1) => exec_stmts w file st1 l2 s1
  | (Exc e, s1) => (Exc e, s1)
  end.
Proof.
  revert st s. induction l1 as [|x l1 IH]; intros st s; [done|].
  cbn [exec_stmts app]. unfold bind.
  destruct (exec_stmt w file st x s) as [[st1|e] s1]; [apply IH|done].
Qed.

(** Declarations change neither [module.exports], nor the completion value,
    nor the store. *)
Lemma exec_declarations (w : world) (file : string) (post : list stmt)
    (st st' : value * value) (s s' : store) :
  forallb is_declaration post = true →
  exec_stmts w file st post s = (Ok st', s') → st' = st ∧ s' = s.
Proof.
  revert st s. induction post as [|x post IH]; intros st s Hdecl Hrun.
  - by injection Hrun as <- <-.
  - cbn [forallb] in Hdecl. apply andb_true_iff in Hdecl as [Hx Hpost].
    destruct x; try discriminate. destruct st as [mx cv].
    cbn [exec_stmts exec_stmt] in Hrun. unfold bind in Hrun.
    pose proof (eval_expr_store w file mx e s) as Hs.
    destruct (eval_expr w file mx e s) as [[v|x] s1]; [|discriminate].
    simpl in Hs. subst s1. by apply IH.
Qed.

(** The unwrapping step computes [unwrapped], except on [null]. *)
Lemma unwrap_default_unwrapped (v : value) (s : store) :
  v ≠ VNull → unwrap_default v s = (Ok (unwrapped v), s).
Proof.
  intros Hv. destruct v; try done.
  unfold unwrap_default.
  change (String.eqb (typeof (VObject props)) "object") with true. cbv iota.
  unfold unwrapped, bind, lift, get_prop, ret.
  destruct (own "__esModule" props) as [flag|]; cbn [default from_option id];
    [|reflexivity].
  destruct (truthy flag); [|by destruct (own "default" props)].
  destruct (own "default" props) as [dflt|]; cbn [default from_option id andb];
    [|reflexivity].
  by destruct (truthy dflt).
Qed.

(** On [null] it throws a TypeError. *)
Lemma unwrap_default_null (s : store) :
  unwrap_default VNull s
  = (Exc (TypeError "Cannot read properties of null (reading '__esModule')"), s).
Proof. reflexivity. Qed.

(** [readFileSync] returns an entry of the world that can be read, or throws
    a system error on the path; it leaves the store alone. *)
Lemma readFileSync_cases (w : world) (p : string) (s : store) :
  (∃ f, readFileSync w p s = (Ok f, s)
        ∧ f ∈ files w ∧ path f = p ∧ readError f = None)
  ∨ (∃ code, readFileSync w p s = (Exc (SystemError code p), s)).
Proof.
  unfold readFileSync. destruct (find _ (files w)) as [f|] eqn:Hfind.
  - apply find_some in Hfind as [Hin Heq].
    destruct (readError f) as [code|] eqn:Herr; [right; by exists code|].
    left. exists f. split_and!; [done| |by apply String.eqb_eq|done].
    by apply list_elem_of_In.
  - right. by exists "ENOENT".
Qed.

(** What [readFileSync] gives does not depend on the store. *)
Lemma readFileSync_store (w : world) (p : string) (f : file) (s s0 : store) :
  readFileSync w p s = (Ok f, s) → readFileSync w p s0 = (Ok f, s0).
Proof.
  unfold readFileSync. destruct (find _ (files w)) as [f'|]; [|discriminate].
  destruct (readError f'); [discriminate|]. unfold ret. by intros [= ->].
Qed.

(** The evaluator on a file that is read and whose script ran to its end. *)
Lemma evaluate_after_run (w : world) (pageFile : string) (f : file)
    (prog : list stmt) (v : value) (s s' : store) :
  pageFile ≠ "" →
  readFileSync w pageFile s = (Ok f, s) →
  script f = Some prog →
  runInContext w pageFile prog s = (Ok v, s') →
  evaluateCompilationResult w pageFile s =
  match unwrap_default v s' with
  | (Ok r, s'') =>
      (if callable r then Ok r else Exc (Error "Source not produce an HTML"), s'')
  | (Exc e, s'') => (Exc e, s'')
  end.
Proof.
  intros Hne Hread Hscript Hrun. unfold evaluateCompilationResult.
  destruct (String.eqb_spec pageFile "") as [->|_]; [done|].
  unfold bind. rewrite Hread. unfold compile_script. rewrite Hscript.
  unfold ret at 1. rewrite Hrun.
  destruct (unwrap_default v s') as [[r|e] s'']; [|done].
  unfold callable. by destruct (String.eqb (typeof r) "function").
Qed.

(** The same, for a captured value other than [null]. *)
Lemma evaluate_verdict (w : world) (pageFile : string) (f : file)
    (prog : list stmt) (v : value) (s s' : store) :
  pageFile ≠ "" →
  readFileSync w pageFile s = (Ok f, s) →
  script f = Some prog →
  runInContext w pageFile prog s = (Ok v, s') →
  v ≠ VNull →
  evaluateCompilationResult w pageFile s =
  (if callable (unwrapped v) then Ok (unwrapped v)
   else Exc (Error "Source not produce an HTML"), s').
Proof.
  intros Hne Hread Hscript Hrun Hv.
  rewrite (evaluate_after_run _ _ _ _ _ _ _ Hne Hread Hscript Hrun).
  by rewrite unwrap_default_unwrapped.
Qed.

(** C3, amended.  The value the evaluator captures is the completion value
    of the page script, not the exports of the page file's module.  For a
    script that runs to its end, it is the value of the last statement that
    leaves one (an expression statement or an assignment, with declarations
    only after it), and the evaluator's verdict is taken on that value
    whatever [module.exports] holds; the two are the same value when that
    last statement is the assignment to [module.exports]. *)
Theorem C3_captured_completion_value (w : world) (pageFile : string) (f : file)
    (pre post : list stmt) (last : stmt) (e : expr) (s s' : store) (mx cv : value) :
  pageFile ≠ "" →
  readFileSync w pageFile s = (Ok f, s) →
  script f = Some (pre ++ last :: post) →
  leaves_value last = Some e →
  forallb is_declaration post = true →
  run_script w pageFile (pre ++ last :: post) s = (Ok (mx, cv), s') →
  (∃ mx0 cv0 s0 s1,
     exec_stmts w pageFile (VObject [], VUndefined) pre s = (Ok (mx0, cv0), s0)
     ∧ eval_expr w pageFile mx0 e s0 = (Ok cv, s1))
  ∧ runInContext w pageFile (pre ++ last :: post) s = (Ok cv, s')
  ∧ (cv ≠ VNull →
     evaluateCompilationResult w pageFile s =
     (if callable (unwrapped cv) then Ok (unwrapped cv)
      else Exc (Error "Source not produce an HTML"), s'))
  ∧ (last = SSetModuleExports e → mx = cv).
Proof.
  intros Hne Hread Hscript Hlast Hpost Hrun.
  assert (runInContext w pageFile (pre ++ last :: post) s = (Ok cv, s')) as Hcaptured.
  { unfold runInContext, bind. by rewrite Hrun. }
  unfold run_script in Hrun. rewrite exec_stmts_app in Hrun.
  destruct (exec_stmts w pageFile (VObject [], VUndefined) pre s)
    as [[[mx0 cv0]|x] s0] eqn:Hpre; [|discriminate].
  cbn [exec_stmts] in Hrun. unfold bind in Hrun.
  destruct (exec_stmt w pageFile (mx0, cv0) last s0) as [[st1|x] s1] eqn:Hstep;
    [|discriminate].
  apply exec_declarations in Hrun as [Hst _]; [|done]. subst st1.
  assert (∃ s2, eval_expr w pageFile mx0 e s0 = (Ok cv, s2)
                ∧ (last = SSetModuleExports e → mx = cv)) as (s2 & Heval & Hexports).
  { unfold exec_stmt, bind in Hstep.
    destruct last; try discriminate; injection Hlast as ->;
      destruct (eval_expr w pageFile mx0 e s0) as [[v|x] s2]; try discriminate;
      unfold modify, ret in Hstep; injection Hstep as <- <- <-;
      exists s2; (split; [done|]); congruence. }
  split_and!; [by exists mx0, cv0, s0, s2|done| |done].
  intros Hcv. by eapply evaluate_verdict.
Qed.

(** At [Site.trailing_expression], whose last statement is [require('./_helper');]. *)
Lemma C3_captured_completion_value_witness :
  runInContext (Site.site_of Site.trailing_expression_src Site.trailing_expression)
    "/site/pages/home.js" Site.trailing_expression empty_store
  = (Ok (VObject [("util", VNum 1)]), empty_store)
  ∧ evaluateCompilationResult
      (Site.site_of Site.trailing_expression_src Site.trailing_expression)
      "/site/pages/home.js" empty_store
    = (Exc (Error "Source not produce an HTML"), empty_store).
Proof.
  destruct (C3_captured_completion_value
              (Site.site_of Site.trailing_expression_src Site.trailing_expression)
              "/site/pages/home.js"
              (File "/site/pages/home.js" Site.trailing_expression_src
                 (Some Site.trailing_expression))
              [SSetModuleExports (ELit Site.home_fn)] [] (SExpr (ERequire "./_helper"))
              (ERequire "./_helper") empty_store empty_store
              Site.home_fn (VObject [("util", VNum 1)]))
    as (_ & Hcaptured & Hverdict & _).
  - discriminate.
  - vm_compute. reflexivity.
  - reflexivity.
  - reflexivity.
  - reflexivity.
  - vm_compute. reflexivity.
  - split; [exact Hcaptured|]. apply Hverdict. discriminate.
Defined.

(** The claim as written fails at [Site.trailing_expression], the script
    [module.exports = home_fn; require('./_helper');]: the script assigned
    the function to [module.exports], the captured value is the object the
    helper module exports, and the evaluator rejects the page. *)
Lemma C3_counterexample :
  run_script (Site.site_of Site.trailing_expression_src Site.trailing_expression) "/site/pages/home.js"
    Site.trailing_expression empty_store
  = (Ok (Site.home_fn, VObject [("util", VNum 1)]), empty_store)
  ∧ runInContext (Site.site_of Site.trailing_expression_src Site.trailing_expression) "/site/pages/home.js"
      Site.trailing_expression empty_store
    = (Ok (VObject [("util", VNum 1)]), empty_store)
  ∧ VObject [("util", VNum 1)] ≠ Site.home_fn
  ∧ evaluateCompilationResult (Site.site_of Site.trailing_expression_src Site.trailing_expression)
      "/site/pages/home.js" empty_store
    = (Exc (Error "Source not produce an HTML"), empty_store).
Proof. repeat split; try (vm_compute; reflexivity). discriminate. Qed.

(** C4, amended.  The evaluator fails with [Error("The file is empty")]
    whenever the path is empty, before anything is read or run; on a path
    that is not empty none of its own checks fails with that message, which
    can then only be what running the page script threw.  When the file is
    read and its script runs to its end with a captured value other than
    [null], the evaluator fails with [Error("Source not produce an HTML")]
    exactly when the captured and, where applicable, default-unwrapped value
    is not callable, and returns that value when it is. *)
Theorem C4_evaluate_outcomes (w : world) (pageFile : string) (s : store) :
  (pageFile = "" →
   evaluateCompilationResult w pageFile s = (Exc (Error "The file is empty"), s))
  ∧ (pageFile ≠ "" →
     result (evaluateCompilationResult w pageFile) s = Exc (Error "The file is empty") →
     ∃ f prog s',
       readFileSync w pageFile s = (Ok f, s) ∧ script f = Some prog
       ∧ runInContext w pageFile prog s = (Exc (Error "The file is empty"), s'))
  ∧ ∀ f prog v s',
      pageFile ≠ "" →
      readFileSync w pageFile s = (Ok f, s) →
      script f = Some prog →
      runInContext w pageFile prog s = (Ok v, s') →
      v ≠ VNull →
      evaluateCompilationResult w pageFile s =
      (if callable (unwrapped v) then Ok (unwrapped v)
       else Exc (Error "Source not produce an HTML"), s').
Proof.
  split_and!.
  - by intros ->.
  - intros Hne. unfold result, evaluateCompilationResult.
    destruct (String.eqb_spec pageFile "") as [->|_]; [done|].
    unfold bind.
    destruct (readFileSync_cases w pageFile s) as [(f & Hread & _)|[code Hread]];
      rewrite Hread; [|discriminate].
    unfold compile_script. destruct (script f) as [prog|] eqn:Hscript; [|discriminate].
    unfold ret at 1.
    destruct (runInContext w pageFile prog s) as [[v|x] s1] eqn:Hrun.
    + assert (v = VNull ∨ v ≠ VNull) as [->|Hv]
        by (destruct v; (by left) || (by right)).
      * by rewrite unwrap_default_null.
      * rewrite unwrap_default_unwrapped by done.
        by destruct (String.eqb (typeof (unwrapped v)) "function").
    + cbn [fst]. intros [= ->]. by exists f, prog, s1.
  - intros f prog v s' Hne Hread Hscript Hrun Hv. by eapply evaluate_verdict.
Qed.

(** At the empty path, at [home.js] of [More.throws_file_is_empty], whose
    script throws the evaluator's own message, and at [answer.js] of
    [Site.exports_number], whose script is [module.exports = 42;]. *)
Lemma C4_evaluate_outcomes_witness :
  evaluateCompilationResult Site.exports_number "" empty_store
  = (Exc (Error "The file is empty"), empty_store)
  ∧ (∃ f prog s',
       readFileSync More.throws_file_is_empty "/site/pages/home.js" empty_store
       = (Ok f, empty_store)
       ∧ script f = Some prog
       ∧ runInContext More.throws_file_is_empty "/site/pages/home.js" prog empty_store
         = (Exc (Error "The file is empty"), s'))
  ∧ evaluateCompilationResult Site.exports_number "/site/pages/answer.js" empty_store
    = (Exc (Error "Source not produce an HTML"), empty_store).
Proof.
  split_and!.
  - apply (proj1 (C4_evaluate_outcomes Site.exports_number "" empty_store)).
    reflexivity.
  - apply (proj1 (proj2 (C4_evaluate_outcomes More.throws_file_is_empty
                           "/site/pages/home.js" empty_store))).
    + discriminate.
    + vm_compute. reflexivity.
  - apply (proj2 (proj2 (C4_evaluate_outcomes Site.exports_number
                           "/site/pages/answer.js" empty_store))
             (File "/site/pages/answer.js" "module.exports = 42;"
                   (Some [SSetModuleExports (ELit (VNum 42))]))
             [SSetModuleExports (ELit (VNum 42))] (VNum 42) empty_store).
    + discriminate.
    + vm_compute. reflexivity.
    + reflexivity.
    + vm_compute. reflexivity.
    + discriminate.
Defined.

(** The claim as written fails twice.  At [Site.exports_number] the captured
    value [42] is not callable and the error's message is not the claimed
    one.  At [More.throws_file_is_empty], whose script is
    [throw new Error('The file is empty');], the evaluator fails with the
    message [The file is empty] on a path that is not empty. *)
Lemma C4_counterexample :
  callable (unwrapped (VNum 42)) = false
  ∧ runInContext Site.exports_number "/site/pages/answer.js"
      [SSetModuleExports (ELit (VNum 42))] empty_store
    = (Ok (VNum 42), empty_store)
  ∧ result (evaluateCompilationResult Site.exports_number "/site/pages/answer.js") empty_store
    = Exc (Error "Source not produce an HTML")
  ∧ result (evaluateCompilationResult Site.exports_number "/site/pages/answer.js") empty_store
    ≠ Exc (Error "Source did not produce an HTML")
  ∧ "/site/pages/home.js" ≠ ""
  ∧ result (evaluateCompilationResult More.throws_file_is_empty "/site/pages/home.js")
      empty_store
    = Exc (Error "The file is empty").
Proof.
  split_and!; [vm_compute; reflexivity..| |discriminate|vm_compute; reflexivity].
  vm_compute. discriminate.
Qed.

(** ** The sandbox bindings *)






(** * Further properties of the code *)

(** ** The names the two regular expressions extract *)

Lemma append_nil_r (s : string) : s +:+ "" = s.
Proof.
  induction s as [|a s IH]; [reflexivity|].
  change (String a (s +:+ "") = String a s). by rewrite IH.
Qed.

Lemma rev_app_append (s acc : string) :
  String.rev_app s acc = String.rev_app s "" +:+ acc.
Proof.
  revert acc. induction s as [|a s IH]; intros acc; [reflexivity|].
  cbn [String.rev_app]. rewrite (IH (String a acc)), (IH (String a "")).
  by rewrite append_assoc.
Qed.

(** The first segment of a path is its longest prefix without a slash. *)
Lemma split_slash_go_head (s cur : string) :
  ∃ tl, Str.split_slash_go cur s = (String.rev cur +:+ Str.span_not "/" s) :: tl.
Proof.
  revert cur. induction s as [|a s IH]; intros cur; cbn [Str.split_slash_go Str.span_not].
  - exists []. by rewrite append_nil_r.
  - destruct (decide (a = "/"%char)) as [->|Ha].
    + eexists. by rewrite append_nil_r.
    + destruct (IH (String a cur)) as [tl ->]. exists tl. f_equal.
      unfold String.rev. cbn [String.rev_app].
      by rewrite (rev_app_append cur (String a "")), append_assoc.
Qed.

(** The span is a prefix, holds no [c], and stops at a [c] or at the end. *)
Lemma span_not_spec (c : ascii) (s : string) :
  has_char c (Str.span_not c s) = false
  ∧ ∃ rest, s = Str.span_not c s +:+ rest ∧ (rest = "" ∨ ∃ r, rest = String c r).
Proof.
  induction s as [|a s (Hno & rest & Hs & Hrest)]; cbn [Str.span_not].
  - split; [done|]. exists "". split; [done|by left].
  - destruct (decide (a = c)) as [->|Ha].
    + split; [done|]. exists (String c s). split; [done|]. right. by exists s.
    + split.
      * cbn [has_char]. by rewrite bool_decide_eq_false_2.
      * exists rest. split; [|done].
        change (String a s = String a (Str.span_not c s +:+ rest)). by rewrite <- Hs.
Qed.

Lemma match_not_Some (c : ascii) (s m : string) :
  Str.match_not c s = Some m → m = Str.span_not c s ∧ m ≠ "".
Proof.
  unfold Str.match_not. destruct (Str.span_not c s); [discriminate|].
  intros [= <-]. by split.
Qed.

(** A path that matches [**/*.ext] starts with a character that is neither
    a slash nor a dot. *)
Lemma glob_match_first_char (ext rel : string) :
  glob_match ext rel = true →
  ∃ a r, rel = String a r ∧ a ≠ "/"%char ∧ a ≠ "."%char.
Proof.
  unfold glob_match. intros [Hsegs _]%andb_true_iff.
  destruct rel as [|a r]; [discriminate|].
  exists a, r. split; [done|].
  destruct (split_slash_go_head (String a r) "") as [tl Htl].
  unfold Str.segments in Hsegs. rewrite Htl in Hsegs.
  cbn [forallb Str.span_not] in Hsegs.
  apply andb_true_iff in Hsegs as [[Hne Hdot]%andb_true_iff _].
  destruct (decide (a = "/"%char)) as [->|Ha]; [discriminate|].
  split; [done|]. intros ->.
  change (String.rev "" +:+ String "." (Str.span_not "/" r))
    with (String "." (Str.span_not "/" r)) in Hdot.
  unfold Str.startsWith in Hdot. rewrite prefix_cons, prefix_nil_l in Hdot.
  by rewrite decide_True in Hdot.
Qed.

(** So neither regular expression comes back with [null] on a path [glob]
    returned. *)
Lemma glob_match_names (ext rel : string) :
  glob_match ext rel = true →
  Str.match_not "/" rel = Some (Str.span_not "/" rel)
  ∧ Str.match_not "." rel = Some (Str.span_not "." rel).
Proof.
  intros (a & r & -> & Hslash & Hdot)%glob_match_first_char.
  unfold Str.match_not. cbn [Str.span_not].
  by rewrite !decide_False.
Qed.

(** ** Reading the files [glob] returned *)

(** Reading a path [glob] returned finds an entry of the world at that path,
    and throws when that entry cannot be read. *)
Lemma readFileSync_glob (ext dir : string) (w : world) (rel : string) (s : store) :
  rel ∈ glob_sync ext dir w →
  ∃ f, f ∈ files w ∧ path f = Path.resolve dir rel
       ∧ readFileSync w (Path.resolve dir rel) s =
         match readError f with
         | Some code => (Exc (SystemError code (Path.resolve dir rel)), s)
         | None => (Ok f, s)
         end.
Proof.
  intros (Hmatch & f0 & Hf0 & Hpath)%glob_sync_resolve. unfold readFileSync.
  destruct (find _ (files w)) as [f|] eqn:Hfind.
  - apply find_some in Hfind as [Hin Heq]. exists f.
    split; [by apply list_elem_of_In|]. split; [by apply String.eqb_eq|].
    by destruct (readError f).
  - apply list_elem_of_In in Hf0.
    apply (find_none _ _ Hfind) in Hf0. by rewrite Hpath, String.eqb_refl in Hf0.
Qed.

Lemma glob_sync_match (ext dir : string) (w : world) (rel : string) :
  rel ∈ glob_sync ext dir w → glob_match ext rel = true.
Proof. by intros [? _]%glob_sync_resolve. Qed.

(** A loop whose body returns on every element of the list runs to its end
    and returns one result for each element. *)
Lemma mapM_total_on {A B} (f : A → M B) (l : list A) (s : store) :
  (∀ x, x ∈ l → ∀ s, ∃ y s', f x s = (Ok y, s')) →
  ∃ ys s', mapM f l s = (Ok ys, s') ∧ length ys = length l.
Proof.
  revert s. induction l as [|x l IH]; intros s Hf; simpl.
  - by exists [], s.
  - unfold bind. destruct (Hf x (list_elem_of_here _ _) s) as (y & s0 & ->).
    destruct (IH s0) as (ys & s1 & -> & Hlen).
    { intros x' Hx'. apply Hf. by apply list_elem_of_further. }
    exists (y :: ys), s1. simpl. by rewrite Hlen.
Qed.

(** ** The components loop *)

(** What registering one readable fragment does. *)
Lemma registerComponent_effect (p : plugin) (w : world) (rel name : string)
    (f : file) (s : store) :
  readFileSync w (Path.resolve (componentsDir p) rel) s = (Ok f, s) →
  Str.match_not "/" rel = Some name →
  registerComponent p w rel s =
  (Ok tt,
   if String.eqb (text f) "" then s
   else with_logged (λ l, l ++ [Log ("Loaded component: " +:+ name)])
          (with_partials (insert name (text f)) s)).
Proof.
  intros Hread Hname. unfold registerComponent, bind. rewrite Hread.
  destruct (String.eqb (text f) ""); [done|]. by rewrite Hname.
Qed.

(** Registering a fragment writes the partial table at no other name than
    the one its path gives, whether it returns or throws. *)
Lemma registerComponent_other (p : plugin) (w : world) (rel name : string) (s : store) :
  Str.match_not "/" rel ≠ Some name →
  partials (exec (registerComponent p w rel) s) !! name = partials s !! name.
Proof.
  intros Hname. unfold exec, registerComponent, bind.
  destruct (readFileSync_cases w (Path.resolve (componentsDir p) rel) s)
    as [(f & -> & _)|[code ->]]; [|done].
  destruct (String.eqb (text f) ""); [done|].
  destruct (Str.match_not "/" rel) as [name'|]; [|done].
  unfold Handlebars.registerPartial, log, modify, bind. cbn.
  apply lookup_insert_ne. congruence.
Qed.

Section KeepsComponents.
Context {X : Type} (proj : store → X).
(** The component is neither the partial table nor the logger's output. *)
Hypothesis not_partials : ∀ f s, proj (with_partials f s) = proj s.
Hypothesis not_logged : ∀ f s, proj (with_logged f s) = proj s.

Lemma keeps_registerComponent (p : plugin) (w : world) (rel : string) :
  keeps proj (registerComponent p w rel).
Proof.
  unfold registerComponent, readFileSync, Handlebars.registerPartial, log.
  keeps_steps; by apply keeps_modify.
Qed.

End KeepsComponents.

(** X1.  Registering a path [glob] returned throws exactly when the entry at
    that path cannot be read (a directory whose name ends in [.hbs], which
    [glob] lists like a file, or a file without read permission), with the
    system error of the read and the store as it was.  Otherwise it returns:
    an empty file changes nothing and is not logged; any other file is stored
    in the partial table under the first segment of its relative path, a name
    without a slash, and one line is logged. *)
Theorem fragment_registration (p : plugin) (w : world) (rel : string) (s : store) :
  rel ∈ glob_sync "hbs" (componentsDir p) w →
  ∃ f name,
    f ∈ files w ∧ path f = Path.resolve (componentsDir p) rel
    ∧ Str.match_not "/" rel = Some name
    ∧ name ≠ "" ∧ has_char "/" name = false
    ∧ registerComponent p w rel s =
      match readError f with
      | Some code =>
          (Exc (SystemError code (Path.resolve (componentsDir p) rel)), s)
      | None =>
          (Ok tt,
           if String.eqb (text f) "" then s
           else with_logged (λ l, l ++ [Log ("Loaded component: " +:+ name)])
                  (with_partials (insert name (text f)) s))
      end.
Proof.
  intros Hrel.
  destruct (readFileSync_glob _ _ _ _ s Hrel) as (f & Hf & Hpath & Hread).
  destruct (glob_match_names _ _ (glob_sync_match _ _ _ _ Hrel)) as [Hname _].
  exists f, (Str.span_not "/" rel). split_and!; [done..| | |].
  - by apply match_not_Some in Hname as [_ ?].
  - apply span_not_spec.
  - destruct (readError f) as [code|].
    + unfold registerComponent, bind. by rewrite Hread.
    + by apply registerComponent_effect.
Qed.

(** At [card.hbs] of [More.fragment_directory], a directory. *)
Lemma fragment_registration_witness :
  ∃ f name,
    f ∈ files More.fragment_directory
    ∧ path f = Path.resolve (componentsDir Site.plugin_default) "card.hbs"
    ∧ Str.match_not "/" "card.hbs" = Some name
    ∧ name ≠ "" ∧ has_char "/" name = false
    ∧ registerComponent Site.plugin_default More.fragment_directory "card.hbs" empty_store =
      match readError f with
      | Some code =>
          (Exc (SystemError code
                  (Path.resolve (componentsDir Site.plugin_default) "card.hbs")),
           empty_store)
      | None =>
          (Ok tt,
           if String.eqb (text f) "" then empty_store
           else with_logged (λ l, l ++ [Log ("Loaded component: " +:+ name)])
                  (with_partials (insert name (text f)) empty_store))
      end.
Proof.
  apply (fragment_registration Site.plugin_default More.fragment_directory "card.hbs"
           empty_store).
  vm_compute. apply list_elem_of_here.
Defined.

(** What the components loop throws on the list [glob] returned is the
    system error of an entry that cannot be read. *)
Lemma components_loop_throws (p : plugin) (w : world) (rels : list string)
    (s s' : store) (e : exn) :
  (∀ x, x ∈ rels → x ∈ glob_sync "hbs" (componentsDir p) w) →
  mapM (registerComponent p w) rels s = (Exc e, s') →
  ∃ rel f code,
    rel ∈ rels ∧ f ∈ files w ∧ path f = Path.resolve (componentsDir p) rel
    ∧ readError f = Some code
    ∧ e = SystemError code (Path.resolve (componentsDir p) rel).
Proof.
  revert s. induction rels as [|x rels IH]; intros s Hrels; [discriminate|].
  cbn [mapM]. unfold bind.
  destruct (readFileSync_glob _ _ _ _ s (Hrels x (list_elem_of_here _ _)))
    as (f & Hf & Hpath & Hread).
  destruct (glob_match_names _ _ (glob_sync_match _ _ _ _ (Hrels x (list_elem_of_here _ _))))
    as [Hname _].
  destruct (readError f) as [code|] eqn:Herr.
  - unfold registerComponent at 1, bind. rewrite Hread. intros [= <- <-].
    exists x, f, code. split_and!; try done. apply list_elem_of_here.
  - rewrite (registerComponent_effect _ _ _ _ _ _ Hread Hname).
    destruct (mapM (registerComponent p w) rels _) as [[us|e0] s1] eqn:Hrest;
      [discriminate|].
    intros [= <- <-].
    destruct (IH _ (λ y Hy, Hrels y (list_elem_of_further _ _ _ Hy)) Hrest)
      as (rel & f' & code & Hin & H).
    exists rel, f', code. split; [by apply list_elem_of_further|done].
Qed.

Lemma components_loop_other (p : plugin) (w : world) (rels : list string)
    (name : string) (s : store) :
  Forall (λ x, Str.match_not "/" x ≠ Some name) rels →
  partials (exec (mapM (registerComponent p w) rels) s) !! name = partials s !! name.
Proof.
  unfold exec. revert s. induction rels as [|x rels IH]; intros s Hall; [done|].
  apply Forall_cons in Hall as [Hx Hrels]. cbn [mapM]. unfold bind.
  pose proof (registerComponent_other p w x name s Hx) as Hstep. unfold exec in Hstep.
  destruct (registerComponent p w x s) as [[[]|e] s0]; [|done].
  specialize (IH s0 Hrels).
  destruct (mapM (registerComponent p w) rels s0) as [[us|e] s1]; simpl in *; congruence.
Qed.

(** The components loop touches nothing but the partial table and the log. *)
Lemma components_loop_frame (p : plugin) (w : world) (rels : list string) (s : store) :
  assets (exec (mapM (registerComponent p w) rels) s) = assets s
  ∧ errors (exec (mapM (registerComponent p w) rels) s) = errors s
  ∧ fileDependencies (exec (mapM (registerComponent p w) rels) s) = fileDependencies s
  ∧ hostExports (exec (mapM (registerComponent p w) rels) s) = hostExports s
  ∧ callbackCalls (exec (mapM (registerComponent p w) rels) s) = callbackCalls s.
Proof.
  unfold exec. split_and!.
  - exact (keeps_mapM assets _ _
             (keeps_registerComponent assets (λ _ _, eq_refl) (λ _ _, eq_refl) p w) s).
  - exact (keeps_mapM errors _ _
             (keeps_registerComponent errors (λ _ _, eq_refl) (λ _ _, eq_refl) p w) s).
  - exact (keeps_mapM fileDependencies _ _
             (keeps_registerComponent fileDependencies (λ _ _, eq_refl) (λ _ _, eq_refl) p w) s).
  - exact (keeps_mapM hostExports _ _
             (keeps_registerComponent hostExports (λ _ _, eq_refl) (λ _ _, eq_refl) p w) s).
  - exact (keeps_mapM callbackCalls _ _
             (keeps_registerComponent callbackCalls (λ _ _, eq_refl) (λ _ _, eq_refl) p w) s).
Qed.

(** X2.  In the components loop the last registration under a name wins.
    Once the loop has got through the files before it, a fragment with
    content that no later file of the list shares its first path segment
    with is what the partial table holds under that segment when the loop
    ends, or stops at a later entry it cannot read, whatever was registered
    under that name before.  The loop touches nothing but the partial table
    and the log. *)
Theorem fragment_last_wins (p : plugin) (w : world) (pre post : list string)
    (rel name : string) (f : file) (us : list unit) (s s1 : store) :
  mapM (registerComponent p w) pre s = (Ok us, s1) →
  readFileSync w (Path.resolve (componentsDir p) rel) s = (Ok f, s) →
  text f ≠ "" →
  Str.match_not "/" rel = Some name →
  Forall (λ x, Str.match_not "/" x ≠ Some name) post →
  let s' := exec (mapM (registerComponent p w) (pre ++ rel :: post)) s in
  partials s' !! name = Some (text f)
  ∧ assets s' = assets s ∧ errors s' = errors s
  ∧ fileDependencies s' = fileDependencies s
  ∧ hostExports s' = hostExports s ∧ callbackCalls s' = callbackCalls s.
Proof.
  intros Hpre Hread Htext Hname Hpost. cbv zeta.
  split_and!; try apply components_loop_frame.
  unfold exec. rewrite mapM_app, Hpre. cbn [mapM]. unfold bind.
  rewrite (registerComponent_effect p w rel name f s1
             (readFileSync_store _ _ _ _ _ Hread) Hname).
  destruct (String.eqb_spec (text f) ""); [done|].
  pose proof (components_loop_other p w post name
                (with_logged (λ l, l ++ [Log ("Loaded component: " +:+ name)])
                   (with_partials (insert name (text f)) s1)) Hpost) as Hrest.
  unfold exec in Hrest.
  destruct (mapM (registerComponent p w) post _) as [[us'|e] s2]; simpl in *;
    rewrite Hrest; apply lookup_insert_eq.
Qed.

(** At [More.two_fragments], in the order [glob] lists its fragments:
    [card/alt.hbs] then [card/card.hbs], both registered as [card]. *)
Lemma fragment_last_wins_witness :
  glob_sync "hbs" (componentsDir Site.plugin_default) More.two_fragments
  = ["card/alt.hbs"] ++ "card/card.hbs" :: ["empty/empty.hbs"]
  ∧ let s' := exec (mapM (registerComponent Site.plugin_default More.two_fragments)
                      (["card/alt.hbs"] ++ "card/card.hbs" :: ["empty/empty.hbs"]))
                empty_store in
    partials s' !! "card" = Some "<div>{{title}}</div>"
    ∧ assets s' = assets empty_store ∧ errors s' = errors empty_store
    ∧ fileDependencies s' = fileDependencies empty_store
    ∧ hostExports s' = hostExports empty_store
    ∧ callbackCalls s' = callbackCalls empty_store.
Proof.
  split; [vm_compute; reflexivity|].
  apply (fragment_last_wins Site.plugin_default More.two_fragments
           ["card/alt.hbs"] ["empty/empty.hbs"] "card/card.hbs" "card"
           (File "/site/components/card/card.hbs" "<div>{{title}}</div>" None)
           [tt]
           empty_store
           (with_logged (λ l, l ++ [Log "Loaded component: card"])
              (with_partials (insert "card" "<p>{{title}}</p>") empty_store))).
  - reflexivity.
  - vm_compute. reflexivity.
  - discriminate.
  - reflexivity.
  - apply Forall_cons. split; [discriminate|apply Forall_nil_2].
Defined.

(** ** The pages loop *)

(** What the pages loop does with a page file [glob] returned. *)
Lemma readPage_glob (p : plugin) (w : world) (rel : string) (s : store) :
  rel ∈ glob_sync "js" (pagesDir p) w →
  Str.startsWith "_" rel = false →
  readPage p w rel s =
  match evaluateCompilationResult w (Path.resolve (pagesDir p) rel) s with
  | (Ok fn, s') => (Ok (SlotPage (Str.span_not "." rel) fn), s')
  | (Exc e, s') => (Ok SlotNull, with_logged (λ l, l ++ [LogError e]) s')
  end.
Proof.
  intros Hrel Hunder. unfold readPage. rewrite Hunder. unfold try_catch, bind.
  destruct (glob_match_names _ _ (glob_sync_match _ _ _ _ Hrel)) as [_ ->].
  by destruct (evaluateCompilationResult w (Path.resolve (pagesDir p) rel) s) as [[fn|e] s'].
Qed.

(** The callback of the pages loop always returns, and logs exactly the
    failure of the page it returns [null] for. *)
Lemma readPage_logged (p : plugin) (w : world) (file : string) (s : store) :
  ∃ slot s' errs,
    readPage p w file s = (Ok slot, s')
    ∧ logged s' = logged s ++ (LogError <$> errs)
    ∧ length errs = (if slot_failed slot then 1 else 0).
Proof.
  unfold readPage. destruct (Str.startsWith "_" file).
  { exists SlotUndefined, s, []. by rewrite app_nil_r. }
  unfold try_catch, bind.
  pose proof (keeps_evaluateCompilationResult logged (λ _ _, eq_refl) w
                (Path.resolve (pagesDir p) file) s) as Hlog.
  destruct (evaluateCompilationResult w (Path.resolve (pagesDir p) file) s)
    as [[fn|e] s0]; simpl in Hlog.
  - destruct (Str.match_not "." file) as [name|].
    + exists (SlotPage name fn), s0, []. by rewrite app_nil_r, Hlog.
    + eexists SlotNull, _, [_]. split; [reflexivity|]. simpl. by rewrite Hlog.
  - eexists SlotNull, _, [e]. split; [reflexivity|]. simpl. by rewrite Hlog.
Qed.

(** X3.  The pages loop never throws, whatever the page scripts do: it
    returns one slot for each file, logs one error for each page it returns
    [null] for and nothing else, and leaves the partial table, the assets,
    the compilation errors, the file dependencies, the callback count and
    the limiter as they were. *)
Theorem pages_loop_isolates_failures (p : plugin) (w : world) (pageFiles : list string)
    (s : store) :
  ∃ pages s' errs,
    mapM (readPage p w) pageFiles s = (Ok pages, s')
    ∧ length pages = length pageFiles
    ∧ logged s' = logged s ++ (LogError <$> errs)
    ∧ length errs = length (List.filter slot_failed pages)
    ∧ partials s' = partials s ∧ assets s' = assets s ∧ errors s' = errors s
    ∧ fileDependencies s' = fileDependencies s
    ∧ callbackCalls s' = callbackCalls s ∧ limit s' = limit s.
Proof.
  revert s. induction pageFiles as [|file pageFiles IH]; intros s.
  - exists [], s, []. cbn. by rewrite app_nil_r.
  - destruct (readPage_logged p w file s) as (slot & s0 & errs0 & Hread & Hlog0 & Hlen0).
    destruct (IH s0) as (pages & s1 & errs1 & Hloop & Hlen & Hlog1 & Hlen1
                         & Hp & Ha & He & Hd & Hc & Hl).
    exists (slot :: pages), s1, (errs0 ++ errs1).
    cbn [mapM]. unfold bind. rewrite Hread, Hloop.
    split; [done|]. split; [by rewrite !length_cons, Hlen|].
    split; [by rewrite Hlog1, Hlog0, fmap_app, app_assoc|].
    split.
    { rewrite length_app, Hlen0, Hlen1. cbn [List.filter].
      by destruct (slot_failed slot). }
    pose proof (keeps_readPage partials (λ _ _, eq_refl) (λ _ _, eq_refl) p w file s) as Hp0.
    pose proof (keeps_readPage assets (λ _ _, eq_refl) (λ _ _, eq_refl) p w file s) as Ha0.
    pose proof (keeps_readPage errors (λ _ _, eq_refl) (λ _ _, eq_refl) p w file s) as He0.
    pose proof (keeps_readPage fileDependencies (λ _ _, eq_refl) (λ _ _, eq_refl) p w file s) as Hd0.
    pose proof (keeps_readPage callbackCalls (λ _ _, eq_refl) (λ _ _, eq_refl) p w file s) as Hc0.
    pose proof (keeps_readPage limit (λ _ _, eq_refl) (λ _ _, eq_refl) p w file s) as Hl0.
    rewrite Hread in Hp0, Ha0, He0, Hd0, Hc0, Hl0. simpl in *.
    split_and!; congruence.
Qed.

(** X4.  For a page file [glob] returned whose relative path does not begin
    with an underscore, the pages loop yields a page exactly when the
    evaluator returns, and otherwise logs the evaluator's exception and
    yields [null]; the regular expression for the name never fails on such a
    path.  The page name is a prefix of the relative path, is not empty and
    holds no dot. *)
Theorem page_of_scanned_file (p : plugin) (w : world) (rel : string) (s : store) :
  rel ∈ glob_sync "js" (pagesDir p) w →
  Str.startsWith "_" rel = false →
  ∃ name rest,
    rel = name +:+ rest ∧ name ≠ "" ∧ has_char "." name = false
    ∧ readPage p w rel s =
      match evaluateCompilationResult w (Path.resolve (pagesDir p) rel) s with
      | (Ok fn, s') => (Ok (SlotPage name fn), s')
      | (Exc e, s') => (Ok SlotNull, with_logged (λ l, l ++ [LogError e]) s')
      end.
Proof.
  intros Hrel Hunder. exists (Str.span_not "." rel).
  destruct (span_not_spec "." rel) as (Hno & rest & Hrest & _). exists rest.
  destruct (glob_match_names _ _ (glob_sync_match _ _ _ _ Hrel)) as [_ Hname].
  split_and!; [done| |done|by apply readPage_glob].
  by apply match_not_Some in Hname as [_ ?].
Qed.

(** At [sub/page.js] of [Site.with_subdirectory]. *)
Lemma page_of_scanned_file_witness :
  ∃ name rest,
    "sub/page.js" = name +:+ rest ∧ name ≠ "" ∧ has_char "." name = false
    ∧ readPage Site.plugin_default Site.with_subdirectory "sub/page.js" empty_store =
      match evaluateCompilationResult Site.with_subdirectory
              (Path.resolve (pagesDir Site.plugin_default) "sub/page.js") empty_store with
      | (Ok fn, s') => (Ok (SlotPage name fn), s')
      | (Exc e, s') => (Ok SlotNull, with_logged (λ l, l ++ [LogError e]) s')
      end.
Proof.
  apply (page_of_scanned_file Site.plugin_default Site.with_subdirectory "sub/page.js"
           empty_store).
  - vm_compute. apply list_elem_of_here.
  - reflexivity.
Defined.

(** ** More on the evaluator *)

(** X6.  What the evaluator makes of the value a script left, for a file
    that is read and a script that ran to its end: a function is returned as
    it is; an object is accepted exactly when it carries a truthy
    [__esModule] and a [default] that is a function, which is returned (one
    level, a wrapper in a wrapper is rejected); [null] makes it throw a
    TypeError; anything else is rejected with
    [Error("Source not produce an HTML")]. *)
Theorem evaluator_by_captured_value (w : world) (pageFile : string) (f : file)
    (prog : list stmt) (v : value) (s s' : store) :
  pageFile ≠ "" →
  readFileSync w pageFile s = (Ok f, s) →
  script f = Some prog →
  runInContext w pageFile prog s = (Ok v, s') →
  evaluateCompilationResult w pageFile s =
  (match v with
   | VFunction _ => Ok v
   | VNull => Exc (TypeError "Cannot read properties of null (reading '__esModule')")
   | VObject props =>
       match own "__esModule" props, own "default" props with
       | Some flag, Some (VFunction body) =>
           if truthy flag then Ok (VFunction body)
           else Exc (Error "Source not produce an HTML")
       | _, _ => Exc (Error "Source not produce an HTML")
       end
   | _ => Exc (Error "Source not produce an HTML")
   end, s').
Proof.
  intros Hne Hread Hscript Hrun.
  rewrite (evaluate_after_run _ _ _ _ _ _ _ Hne Hread Hscript Hrun).
  destruct v as [| |b|n|str|props|body]; try reflexivity.
  rewrite unwrap_default_unwrapped by done. unfold unwrapped.
  destruct (own "__esModule" props) as [flag|]; [|reflexivity].
  destruct (own "default" props) as [dflt|]; [|reflexivity].
  destruct (truthy flag); cbn [andb]; [|by destruct dflt].
  destruct dflt as [| |b|n|str|props'|body]; cbn [truthy]; try reflexivity.
  - by destruct b.
  - by destruct (negb (n =? 0)%Z).
  - by destruct (negb (String.eqb str "")).
Qed.

(** At [More.es_module], a page written as a transpiled ES module. *)
Lemma evaluator_by_captured_value_witness :
  evaluateCompilationResult More.es_module "/site/pages/home.js" empty_store
  = (Ok Site.home_fn, empty_store).
Proof.
  apply (evaluator_by_captured_value More.es_module "/site/pages/home.js"
           (File "/site/pages/home.js"
              "module.exports = { __esModule: true, default: function () { return { component: 'card', title: 'Hi' }; } };"
              (Some [SSetModuleExports (ELit (VObject More.es_wrapper))]))
           [SSetModuleExports (ELit (VObject More.es_wrapper))]
           (VObject More.es_wrapper) empty_store empty_store).
  - discriminate.
  - vm_compute. reflexivity.
  - reflexivity.
  - vm_compute. reflexivity.
Defined.


(** A page whose script is [exports.toString;] is accepted on an [exports]
    object without properties of its own, with the inherited function. *)
Example inherited_member_accepted :
  evaluateCompilationResult More.reads_toString "/site/pages/home.js" empty_store
  = (Ok (VFunction (Returns (VStr "[object Object]"))), empty_store).
Proof. vm_compute. reflexivity. Qed.



(** ** The handler as a whole *)
(** The pages loop touches neither the assets nor the callback count. *)
Lemma pages_loop_frame (p : plugin) (w : world) (pageFiles : list string)
    (s : store) :
  assets (exec (mapM (readPage p w) pageFiles) s) = assets s
  ∧ callbackCalls (exec (mapM (readPage p w) pageFiles) s) = callbackCalls s.
Proof.
  unfold exec. split.
  - exact (keeps_mapM assets _ _
             (keeps_readPage assets (λ _ _, eq_refl) (λ _ _, eq_refl) p w) s).
  - exact (keeps_mapM callbackCalls _ _
             (keeps_readPage callbackCalls (λ _ _, eq_refl) (λ _ _, eq_refl) p w) s).
Qed.

(** Nor the compilation errors, the file dependencies or the limiter. *)
Lemma pages_loop_frame_more (p : plugin) (w : world) (pageFiles : list string)
    (s : store) :
  assets (exec (mapM (readPage p w) pageFiles) s) = assets s
  ∧ errors (exec (mapM (readPage p w) pageFiles) s) = errors s
  ∧ fileDependencies (exec (mapM (readPage p w) pageFiles) s) = fileDependencies s
  ∧ limit (exec (mapM (readPage p w) pageFiles) s) = limit s.
Proof.
  unfold exec. split_and!.
  - exact (keeps_mapM assets _ _
             (keeps_readPage assets (λ _ _, eq_refl) (λ _ _, eq_refl) p w) s).
  - exact (keeps_mapM errors _ _
             (keeps_readPage errors (λ _ _, eq_refl) (λ _ _, eq_refl) p w) s).
  - exact (keeps_mapM fileDependencies _ _
             (keeps_readPage fileDependencies (λ _ _, eq_refl) (λ _ _, eq_refl) p w) s).
  - exact (keeps_mapM limit _ _
             (keeps_readPage limit (λ _ _, eq_refl) (λ _ _, eq_refl) p w) s).
Qed.

Section KeepsEmitting.
Context {X : Type} (proj : store → X).
(** The component is neither the assets nor the compilation errors. *)
Hypothesis not_assets : ∀ f s, proj (with_assets f s) = proj s.
Hypothesis not_errors : ∀ f s, proj (with_errors f s) = proj s.

Lemma keeps_writePage (page : option rendered) : keeps proj (writePage page).
Proof.
  unfold writePage, getAsset, emitAsset. keeps_steps; by apply keeps_modify.
Qed.

End KeepsEmitting.

(** The rendering loop leaves the store as it was. *)
Lemma rendering_loop_store (p : plugin) (pages : list page_slot) (s : store) :
  snd (mapM (renderPage p) pages s) = s.
Proof. exact (keeps_mapM (λ s, s) _ _ (keeps_renderPage (λ s, s) p) s). Qed.

(** The handler, loop by loop: it is rejected when the components loop
    throws; otherwise the pages loop runs to its end, and the handler is
    rejected when the rendering loop throws, and else emits, logs and calls
    back. *)
Lemma processAssets_run (p : plugin) (w : world) (s : store) :
  match mapM (registerComponent p w) (glob_sync "hbs" (componentsDir p) w)
          (with_logged (λ l, l ++ [Log "Starting creating static pages...."]) s) with
  | (Exc e, s1) => processAssets p w s = (Exc e, s1)
  | (Ok _, s1) =>
      ∃ pages s2,
        mapM (readPage p w) (glob_sync "js" (pagesDir p) w) s1 = (Ok pages, s2)
        ∧ processAssets p w s =
          match mapM (renderPage p) pages s2 with
          | (Ok pagesRend, _) =>
              (Ok tt,
               with_callbackCalls S
                 (with_logged (λ l, l ++ [Log "Finished creating pages"])
                    (exec (forEach writePage pagesRend) s2)))
          | (Exc e, _) => (Exc e, s2)
          end
  end.
Proof.
  destruct (mapM (registerComponent p w) _ _) as [[us|e] s1] eqn:Hcomp.
  2:{ unfold processAssets, log, bind, modify. by rewrite Hcomp. }
  destruct (mapM_total (readPage p w) (glob_sync "js" (pagesDir p) w) s1)
    as (pages & s2 & Hpages & _); [apply readPage_total|].
  exists pages, s2. split; [done|].
  unfold processAssets, buildPages, log, callback, bind, modify.
  rewrite Hcomp, Hpages.
  pose proof (rendering_loop_store p pages s2) as Hstore.
  destruct (mapM (renderPage p) pages s2) as [[pagesRend|e] s3]; simpl in Hstore;
    subst s3; [|done].
  destruct (emitting_loop pagesRend s2) as (Hres & _). unfold result, exec in *.
  by destruct (forEach writePage pagesRend s2) as [[[]|e] s4].
Qed.

(** X8.  The handler calls the callback exactly once when it returns and not
    at all when it is rejected; when it returns its last log line is
    [Finished creating pages]; when it is rejected no asset has been emitted
    (emission is all or nothing). *)
Theorem handler_completes_or_emits_nothing (p : plugin) (w : world) (s : store) :
  match processAssets p w s with
  | (Ok _, s') =>
      callbackCalls s' = S (callbackCalls s)
      ∧ last (logged s') = Some (Log "Finished creating pages")
  | (Exc _, s') =>
      callbackCalls s' = callbackCalls s ∧ assets s' = assets s
  end.
Proof.
  pose proof (processAssets_run p w s) as Hrun.
  destruct (components_loop_frame p w (glob_sync "hbs" (componentsDir p) w)
              (with_logged (λ l, l ++ [Log "Starting creating static pages...."]) s))
    as (Ha1 & _ & _ & _ & Hc1).
  unfold exec in Ha1, Hc1.
  destruct (mapM (registerComponent p w) _ _) as [[us|e] s1];
    simpl in Ha1, Hc1; [|by rewrite Hrun].
  destruct Hrun as (pages & s2 & Hpages & ->).
  destruct (pages_loop_frame p w (glob_sync "js" (pagesDir p) w) s1)
    as (Ha2 & Hc2).
  unfold exec in Ha2, Hc2. rewrite Hpages in Ha2, Hc2. simpl in Ha2, Hc2.
  destruct (mapM (renderPage p) pages s2) as [[pagesRend|e] s3].
  - split.
    + cbn [callbackCalls with_callbackCalls with_logged]. f_equal. unfold exec.
      rewrite (keeps_forEach callbackCalls _ _
                 (keeps_writePage callbackCalls (λ _ _, eq_refl) (λ _ _, eq_refl))).
      congruence.
    + cbn [logged with_callbackCalls with_logged]. apply last_snoc.
  - split; congruence.
Qed.

(** X9.  The handler never overwrites or removes an asset the compilation
    already had, never reports a compilation error, and never touches the
    file dependencies or the limiter, whether it returns or is rejected. *)
Theorem handler_keeps_existing_assets (p : plugin) (w : world) (s : store) :
  let s' := exec (processAssets p w) s in
  (∀ name a, assets s !! name = Some a → assets s' !! name = Some a)
  ∧ errors s' = errors s
  ∧ fileDependencies s' = fileDependencies s
  ∧ limit s' = limit s.
Proof.
  cbv zeta. unfold exec.
  pose proof (processAssets_run p w s) as Hrun.
  destruct (components_loop_frame p w (glob_sync "hbs" (componentsDir p) w)
              (with_logged (λ l, l ++ [Log "Starting creating static pages...."]) s))
    as (Ha1 & He1 & Hd1 & _ & _).
  unfold exec in Ha1, He1, Hd1.
  pose proof (keeps_mapM limit _ (glob_sync "hbs" (componentsDir p) w)
             (keeps_registerComponent limit (λ _ _, eq_refl) (λ _ _, eq_refl) p w)
             (with_logged (λ l, l ++ [Log "Starting creating static pages...."]) s)) as Hl1.
  destruct (mapM (registerComponent p w) _ _) as [[us|e] s1];
    simpl in Ha1, He1, Hd1, Hl1.
  2:{ rewrite Hrun. cbn [snd]. split_and!; [intros name a Ha; by rewrite Ha1|done..]. }
  destruct Hrun as (pages & s2 & Hpages & ->).
  destruct (pages_loop_frame_more p w (glob_sync "js" (pagesDir p) w) s1)
    as (Ha2 & He2 & Hd2 & Hl2).
  unfold exec in Ha2, He2, Hd2, Hl2. rewrite Hpages in Ha2, He2, Hd2, Hl2.
  simpl in *.
  destruct (mapM (renderPage p) pages s2) as [[pagesRend|e] s3]; cbn [snd].
  - destruct (emitting_loop pagesRend s2) as (_ & He3 & Ha3).
    cbn [assets errors fileDependencies limit with_callbackCalls with_logged].
    split_and!.
    + intros name a Ha. rewrite Ha3. by rewrite Ha2, Ha1, Ha.
    + congruence.
    + unfold exec.
      rewrite (keeps_forEach fileDependencies _ _
                 (keeps_writePage fileDependencies (λ _ _, eq_refl) (λ _ _, eq_refl))).
      congruence.
    + unfold exec.
      rewrite (keeps_forEach limit _ _
                 (keeps_writePage limit (λ _ _, eq_refl) (λ _ _, eq_refl))).
      congruence.
  - split_and!; [intros name a Ha; by rewrite Ha2, Ha1|congruence..].
Qed.

(** X10.  The handler can be rejected in two places only.  Either the
    components loop threw, and the exception is the system error of reading
    an entry [glob] listed that cannot be read (a directory named like a
    fragment, an unreadable file); or the components loop and the pages loop
    ran to their ends and the exception is the one the rendering loop threw
    on the slots the pages loop returned, with the store as the pages loop
    left it. *)
Theorem handler_rejection_sources (p : plugin) (w : world) (s s' : store) (e : exn) :
  processAssets p w s = (Exc e, s') →
  (∃ rel f code,
     rel ∈ glob_sync "hbs" (componentsDir p) w
     ∧ f ∈ files w ∧ path f = Path.resolve (componentsDir p) rel
     ∧ readError f = Some code
     ∧ e = SystemError code (Path.resolve (componentsDir p) rel)
     ∧ mapM (registerComponent p w) (glob_sync "hbs" (componentsDir p) w)
         (with_logged (λ l, l ++ [Log "Starting creating static pages...."]) s)
       = (Exc e, s'))
  ∨ (∃ us s1 pages,
       mapM (registerComponent p w) (glob_sync "hbs" (componentsDir p) w)
         (with_logged (λ l, l ++ [Log "Starting creating static pages...."]) s)
       = (Ok us, s1)
       ∧ mapM (readPage p w) (glob_sync "js" (pagesDir p) w) s1 = (Ok pages, s')
       ∧ mapM (renderPage p) pages s' = (Exc e, s')).
Proof.
  pose proof (processAssets_run p w s) as Hrun.
  destruct (mapM (registerComponent p w) _ _) as [[us|e0] s1] eqn:Hcomp.
  - destruct Hrun as (pages & s2 & Hpages & ->).
    pose proof (rendering_loop_store p pages s2) as Hstore.
    destruct (mapM (renderPage p) pages s2) as [[pagesRend|e1] s3] eqn:Hrender;
      [discriminate|].
    simpl in Hstore. subst s3. intros [= <- <-]. right. by exists us, s1, pages.
  - rewrite Hrun. intros [= <- <-]. left.
    destruct (components_loop_throws p w _ _ _ _ (λ x Hx, Hx) Hcomp)
      as (rel & f & code & Hin & Hf & Hpath & Herr & He).
    by exists rel, f, code.
Qed.

(** At [More.fragment_directory], where the components loop meets a
    directory named [card.hbs]: the handler is rejected with [EISDIR]. *)
Lemma handler_rejection_sources_witness :
  processAssets Site.plugin_default More.fragment_directory empty_store
  = (Exc (SystemError "EISDIR" "/site/components/card.hbs"),
     with_logged (λ l, l ++ [Log "Starting creating static pages...."]) empty_store)
  ∧ ((∃ rel f code,
        rel ∈ glob_sync "hbs" (componentsDir Site.plugin_default) More.fragment_directory
        ∧ f ∈ files More.fragment_directory
        ∧ path f = Path.resolve (componentsDir Site.plugin_default) rel
        ∧ readError f = Some code
        ∧ SystemError "EISDIR" "/site/components/card.hbs"
          = SystemError code (Path.resolve (componentsDir Site.plugin_default) rel)
        ∧ mapM (registerComponent Site.plugin_default More.fragment_directory)
            (glob_sync "hbs" (componentsDir Site.plugin_default) More.fragment_directory)
            (with_logged (λ l, l ++ [Log "Starting creating static pages...."]) empty_store)
          = (Exc (SystemError "EISDIR" "/site/components/card.hbs"),
             with_logged (λ l, l ++ [Log "Starting creating static pages...."]) empty_store))
     ∨ (∃ us s1 pages,
          mapM (registerComponent Site.plugin_default More.fragment_directory)
            (glob_sync "hbs" (componentsDir Site.plugin_default) More.fragment_directory)
            (with_logged (λ l, l ++ [Log "Starting creating static pages...."]) empty_store)
          = (Ok us, s1)
          ∧ mapM (readPage Site.plugin_default More.fragment_directory)
              (glob_sync "js" (pagesDir Site.plugin_default) More.fragment_directory) s1
            = (Ok pages,
               with_logged (λ l, l ++ [Log "Starting creating static pages...."]) empty_store)
          ∧ mapM (renderPage Site.plugin_default) pages
              (with_logged (λ l, l ++ [Log "Starting creating static pages...."]) empty_store)
            = (Exc (SystemError "EISDIR" "/site/components/card.hbs"),
               with_logged (λ l, l ++ [Log "Starting creating static pages...."]) empty_store))).
Proof.
  assert (processAssets Site.plugin_default More.fragment_directory empty_store
          = (Exc (SystemError "EISDIR" "/site/components/card.hbs"),
             with_logged (λ l, l ++ [Log "Starting creating static pages...."]) empty_store))
    as Hrejected by (vm_compute; reflexivity).
  split; [exact Hrejected|].
  exact (handler_rejection_sources Site.plugin_default More.fragment_directory
           empty_store _ _ Hrejected).
Defined.

(** ** Emitting again *)

Lemma first_named_elem (pagesRend : list (option rendered)) (page : rendered) :
  Some page ∈ pagesRend → is_Some (first_named (filename page) pagesRend).
Proof.
  induction pagesRend as [|[page'|] l IH]; intros Hin.
  - by apply elem_of_nil in Hin.
  - rewrite first_named_cons_Some. case_decide; [by eexists|].
    apply elem_of_cons in Hin as [[= ->]|Hin]; [done|by apply IH].
  - rewrite first_named_cons_None.
    apply elem_of_cons in Hin as [?|Hin]; [done|by apply IH].
Qed.

(** Where every page's name is taken, the emitting loop does nothing. *)
Lemma emitting_loop_skips (pagesRend : list (option rendered)) (s : store) :
  (∀ page, Some page ∈ pagesRend → is_Some (assets s !! filename page)) →
  forEach writePage pagesRend s = (Ok tt, s).
Proof.
  induction pagesRend as [|[page|] l IH]; intros Htaken; [done| |].
  - cbn [forEach]. unfold bind. rewrite writePage_some.
    destruct (Htaken page (list_elem_of_here _ _)) as [a ->].
    apply IH. intros page' Hin. apply Htaken. by apply list_elem_of_further.
  - cbn [forEach]. unfold bind. rewrite writePage_null.
    apply IH. intros page' Hin. apply Htaken. by apply list_elem_of_further.
Qed.

(** X11.  After the emitting loop every rendered page's file name is an
    asset of the compilation, and emitting the same pages again changes
    nothing at all: no asset is rewritten, no error reported. *)
Theorem emitting_twice_changes_nothing (pagesRend : list (option rendered)) (s : store) :
  let s' := exec (forEach writePage pagesRend) s in
  (∀ page, Some page ∈ pagesRend → is_Some (assets s' !! filename page))
  ∧ forEach writePage pagesRend s' = (Ok tt, s').
Proof.
  cbv zeta.
  assert (∀ page, Some page ∈ pagesRend →
            is_Some (assets (exec (forEach writePage pagesRend) s) !! filename page))
    as Htaken.
  { intros page Hin. destruct (emitting_loop pagesRend s) as (_ & _ & ->).
    destruct (assets s !! filename page); [by eexists|].
    destruct (first_named_elem pagesRend page Hin) as [r ->]. by eexists. }
  split; [done|]. by apply emitting_loop_skips.
Qed.

(** ** More on the dependency tracker *)

(** X12.  The [afterCompile] handler only adds to the file dependencies:
    what was recorded stays, what is new is the path of a file of the world
    that one of the two patterns matches, and nothing else of the host
    changes.  Running it again records nothing more. *)
Theorem dependency_tracker_adds_scanned_files_only (p : plugin) (w : world) (s : store) :
  let s' := exec (afterCompile p w) s in
  (∀ x, x ∈ fileDependencies s → x ∈ fileDependencies s')
  ∧ (∀ x, x ∈ fileDependencies s' → x ∉ fileDependencies s →
       ∃ f rel, f ∈ files w ∧ path f = x
         ∧ ((x = Path.resolve (pagesDir p) rel ∧ glob_match "js" rel = true)
            ∨ (x = Path.resolve (componentsDir p) rel ∧ glob_match "hbs" rel = true)))
  ∧ exec (afterCompile p w) s' = s'
  ∧ partials s' = partials s ∧ assets s' = assets s ∧ errors s' = errors s
  ∧ logged s' = logged s ∧ hostExports s' = hostExports s
  ∧ callbackCalls s' = callbackCalls s ∧ limit s' = limit s.
Proof.
  cbv zeta. unfold exec. rewrite !afterCompile_dependencies.
  cbn [snd fileDependencies with_fileDependencies].
  split_and!; try done.
  - intros x Hx. by do 2 apply elem_of_union_r.
  - intros x Hx Hnew.
    apply elem_of_union in Hx as [Hx|Hx]; [|apply elem_of_union in Hx as [Hx|Hx]; [|done]].
    + apply elem_of_list_to_set, list_elem_of_fmap in Hx as (rel & -> & Hrel).
      apply glob_sync_resolve in Hrel as (Hmatch & f & Hf & Hpath).
      exists f, rel. split_and!; [done..|]. by right.
    + apply elem_of_list_to_set, list_elem_of_fmap in Hx as (rel & -> & Hrel).
      apply glob_sync_resolve in Hrel as (Hmatch & f & Hf & Hpath).
      exists f, rel. split_and!; [done..|]. by left.
  - destruct s. unfold with_fileDependencies. cbn. f_equal.
    apply set_eq. intros x. rewrite !elem_of_union. tauto.
Qed.

(** At [Site.with_other_files], from no dependency at all. *)
Lemma dependency_tracker_adds_scanned_files_only_witness :
  ∃ f rel, f ∈ files Site.with_other_files ∧ path f = "/site/pages/home.js"
    ∧ (("/site/pages/home.js" = Path.resolve (pagesDir Site.plugin_default) rel
        ∧ glob_match "js" rel = true)
       ∨ ("/site/pages/home.js" = Path.resolve (componentsDir Site.plugin_default) rel
          ∧ glob_match "hbs" rel = true)).
Proof.
  apply (proj1 (proj2 (dependency_tracker_adds_scanned_files_only
                         Site.plugin_default Site.with_other_files empty_store))).
  - apply (bool_decide_unpack _). vm_compute. exact I.
  - apply (bool_decide_unpack _). vm_compute. exact I.
Defined.

(** ** The stats printer *)

(** X13.  What the stats printer shows after the emitting loop: an asset
    the loop created for a page is printed with the green [created] flag, and
    an asset that was there without the flag, which the loop leaves alone
    even when a page has its name, is printed without it. *)
Theorem created_flag_marks_new_pages (green formatFlag : string → string)
    (pagesRend : list (option rendered)) (s : store) (name : string) :
  let s' := exec (forEach writePage pagesRend) s in
  (∀ page, assets s !! name = None → first_named name pagesRend = Some page →
     ∃ a, assets s' !! name = Some a ∧ source a = html page
          ∧ printCreated green formatFlag (created a) = Some (green (formatFlag "created")))
  ∧ (∀ a, assets s !! name = Some a → created a = false →
     ∃ a', assets s' !! name = Some a' ∧ source a' = source a
           ∧ printCreated green formatFlag (created a') = None).
Proof.
  cbv zeta. destruct (emitting_loop pagesRend s) as (_ & _ & Hassets). split.
  - intros page Hfree Hfirst. rewrite Hassets, Hfree, Hfirst.
    by exists (created_asset page).
  - intros a Ha Hflag. rewrite Hassets, Ha. exists a. by rewrite Hflag.
Qed.

(** At [More.store_with_home] and [More.rendered_pair]: [about.html] is
    created and flagged, [home.html] stays as it was, unflagged. *)
Lemma created_flag_marks_new_pages_witness :
  let s' := exec (forEach writePage More.rendered_pair) More.store_with_home in
  (∃ a, assets s' !! "about.html" = Some a ∧ source a = "<div>Ho</div>"
        ∧ printCreated More.green More.formatFlag (created a)
          = Some (More.green (More.formatFlag "created")))
  ∧ (∃ a', assets s' !! "home.html" = Some a' ∧ source a' = "<p>old</p>"
           ∧ printCreated More.green More.formatFlag (created a') = None).
Proof.
  cbv zeta. split.
  - apply (proj1 (created_flag_marks_new_pages More.green More.formatFlag
                    More.rendered_pair More.store_with_home "about.html")
             (Rendered "about.html" "/site/dist/about.html" "<div>Ho</div>")).
    + vm_compute. reflexivity.
    + vm_compute. reflexivity.
  - apply (proj2 (created_flag_marks_new_pages More.green More.formatFlag
                    More.rendered_pair More.store_with_home "home.html")
             (Asset "<p>old</p>" false)).
    + vm_compute. reflexivity.
    + reflexivity.
Defined.

(** ** The rendering loop *)

(** A loop stops at an element its body throws on. *)
Lemma rendering_loop_stops (p : plugin) (pages : list page_slot) (bad : page_slot)
    (s : store) :
  bad ∈ pages →
  (∀ s0, ∃ e, renderPage p bad s0 = (Exc e, s0)) →
  ∃ e, mapM (renderPage p) pages s = (Exc e, s).
Proof.
  intros Hin Hbad. induction pages as [|page pages IH]; [by apply elem_of_nil in Hin|].
  cbn [mapM]. unfold bind.
  apply elem_of_cons in Hin as [<-|Hin].
  { destruct (Hbad s) as [e ->]. by exists e. }
  pose proof (renderPage_store p page s) as Hs.
  destruct (renderPage p page s) as [[r|e] s0]; simpl in Hs; subst s0; [|by eexists].
  destruct (IH Hin) as [e ->]. by eexists.
Qed.

(** X14.  The rendering loop has no guard: one page whose function throws
    when called, or returns [undefined] or [null], makes the whole loop throw,
    with the store untouched, whatever the other pages are. *)
Theorem one_bad_page_stops_rendering (p : plugin) (pages : list page_slot)
    (name : string) (body : behaviour value) (s : store) :
  SlotPage name (VFunction body) ∈ pages →
  (∃ v, body = Raises v) ∨ body = Returns VUndefined ∨ body = Returns VNull →
  ∃ e, mapM (renderPage p) pages s = (Exc e, s).
Proof.
  intros Hin Hbody. apply (rendering_loop_stops p pages _ s Hin).
  intros s0. destruct Hbody as [[v ->]|[->| ->]]; by eexists.
Qed.

(** At a list with a good page before and after one that returns nothing. *)
Lemma one_bad_page_stops_rendering_witness :
  ∃ e, mapM (renderPage Site.plugin_default)
         [ SlotPage "about" Site.home_fn; SlotPage "bad" More.returns_nothing;
           SlotPage "home" Site.home_fn ]
         (with_partials (insert "card" Site.card_text) empty_store)
       = (Exc e, with_partials (insert "card" Site.card_text) empty_store).
Proof.
  apply (one_bad_page_stops_rendering Site.plugin_default _ "bad" (Returns VUndefined)).
  - apply list_elem_of_further, list_elem_of_here.
  - right. left. reflexivity.
Defined.

(** ** Scripts that leave no value *)

(** Declarations throw nothing but a failed [require], and leave the store
    as it was. *)
Lemma declarations_throw (w : world) (pageFile : string) (prog : list stmt)
    (st : value * value) (s s' : store) (e : exn) :
  forallb is_declaration prog = true →
  exec_stmts w pageFile st prog s = (Exc e, s') →
  s' = s ∧ ∃ request, e = ModuleNotFound request.
Proof.
  revert st s. induction prog as [|c prog IH]; intros [mx cv] s Hdecl Hrun;
    [discriminate|].
  cbn [forallb] in Hdecl. apply andb_true_iff in Hdecl as [Hc Hprog].
  destruct c; try discriminate.
  cbn [exec_stmts exec_stmt] in Hrun. unfold bind in Hrun.
  pose proof (eval_expr_store w pageFile mx e0 s) as Hs.
  destruct (eval_expr w pageFile mx e0 s) as [[v|x] s1] eqn:He; simpl in Hs; subst s1.
  - by apply IH in Hrun.
  - injection Hrun as <- <-. split; [done|]. by apply eval_expr_exn in He.
Qed.

(** X15.  A page script made of declarations only (an empty file among
    them) is never accepted: it leaves no completion value, so the evaluator
    throws [Error("Source not produce an HTML")], unless a [require] of one
    of the declarations failed first; the store is left as it was. *)
Theorem declarations_only_rejected (w : world) (pageFile : string) (f : file)
    (prog : list stmt) (s : store) :
  pageFile ≠ "" →
  readFileSync w pageFile s = (Ok f, s) →
  script f = Some prog →
  forallb is_declaration prog = true →
  ∃ e, evaluateCompilationResult w pageFile s = (Exc e, s)
       ∧ (e = Error "Source not produce an HTML" ∨ ∃ request, e = ModuleNotFound request).
Proof.
  intros Hne Hread Hscript Hdecl.
  destruct (runInContext w pageFile prog s) as [[v|e] s'] eqn:Hrun.
  - assert (v = VUndefined ∧ s' = s) as [-> ->].
    { unfold runInContext, run_script, bind in Hrun.
      destruct (exec_stmts w pageFile (VObject [], VUndefined) prog s)
        as [[st|e] s0] eqn:Hexec; [|discriminate].
      apply exec_declarations in Hexec as [-> ->]; [|done].
      by injection Hrun as <- <-. }
    exists (Error "Source not produce an HTML").
    split; [|by left].
    by rewrite (evaluate_after_run _ _ _ _ _ _ _ Hne Hread Hscript Hrun).
  - exists e.
    assert (s' = s ∧ ∃ request, e = ModuleNotFound request) as [-> Hreq].
    { unfold runInContext, run_script, bind in Hrun.
      destruct (exec_stmts w pageFile (VObject [], VUndefined) prog s)
        as [[st|e0] s0] eqn:Hexec; [discriminate|].
      injection Hrun as <- <-. by apply declarations_throw in Hexec. }
    split; [|by right].
    unfold evaluateCompilationResult.
    destruct (String.eqb_spec pageFile "") as [->|_]; [done|].
    unfold bind. rewrite Hread. unfold compile_script. rewrite Hscript.
    unfold ret at 1. by rewrite Hrun.
Qed.

(** At [More.declares_only]. *)
Lemma declarations_only_rejected_witness :
  ∃ e, evaluateCompilationResult More.declares_only "/site/pages/home.js" empty_store
       = (Exc e, empty_store)
       ∧ (e = Error "Source not produce an HTML" ∨ ∃ request, e = ModuleNotFound request).
Proof.
  apply (declarations_only_rejected More.declares_only "/site/pages/home.js"
           (File "/site/pages/home.js" "var page = require('./_helper');"
              (Some [SVar (ERequire "./_helper")]))
           [SVar (ERequire "./_helper")] empty_store).
  - discriminate.
  - vm_compute. reflexivity.
  - reflexivity.
  - reflexivity.
Defined.

(** ** The limiter's cap *)


(** ** Across passes *)

(** X17.  The partial table is never cleared: a partial that no fragment
    file of the current scan registers under its name keeps the content an
    earlier pass gave it through the whole handler, so a fragment deleted from
    disk stays available to the pages. *)
Theorem stale_partials_persist (p : plugin) (w : world) (name : string) (s : store) :
  (∀ rel, rel ∈ glob_sync "hbs" (componentsDir p) w → Str.match_not "/" rel ≠ Some name) →
  partials (exec (processAssets p w) s) !! name = partials s !! name.
Proof.
  intros Hname. unfold exec.
  pose proof (processAssets_run p w s) as Hrun.
  pose proof (components_loop_other p w (glob_sync "hbs" (componentsDir p) w) name
                (with_logged (λ l, l ++ [Log "Starting creating static pages...."]) s))
    as Hp1.
  unfold exec in Hp1.
  destruct (mapM (registerComponent p w) _ _) as [[us|e] s1];
    cbn [snd partials with_logged] in Hp1.
  2:{ rewrite Hrun. cbn [snd]. apply Hp1. by apply Forall_forall. }
  destruct Hrun as (pages & s2 & Hpages & ->).
  pose proof (keeps_mapM partials _ (glob_sync "js" (pagesDir p) w)
                (keeps_readPage partials (λ _ _, eq_refl) (λ _ _, eq_refl) p w) s1) as Hp2.
  rewrite Hpages in Hp2. cbn [snd] in Hp2.
  destruct (mapM (renderPage p) pages s2) as [[pagesRend|e] s3]; cbn [snd].
  - cbn [partials with_callbackCalls with_logged]. unfold exec.
    rewrite (keeps_forEach partials _ _
               (keeps_writePage partials (λ _ _, eq_refl) (λ _ _, eq_refl))).
    rewrite Hp2. apply Hp1. by apply Forall_forall.
  - rewrite Hp2. apply Hp1. by apply Forall_forall.
Qed.

(** At [Site.nested], begun with the partial [banner] in the table. *)
Lemma stale_partials_persist_witness :
  partials (exec (processAssets Site.plugin_default Site.nested) More.store_with_banner)
    !! "banner"
  = Some "<h1>{{title}}</h1>".
Proof.
  rewrite (stale_partials_persist Site.plugin_default Site.nested "banner"
             More.store_with_banner).
  - vm_compute. reflexivity.
  - intros rel Hrel.
    replace (glob_sync "hbs" (componentsDir Site.plugin_default) Site.nested)
      with ["card/card.hbs"] in Hrel by (vm_compute; reflexivity).
    apply list_elem_of_singleton in Hrel as ->. vm_compute. discriminate.
Defined.

(** The [afterCompile] handler always returns. *)
Lemma afterCompile_returns (p : plugin) (w : world) (s : store) :
  afterCompile p w s = (Ok tt, exec (afterCompile p w) s).
Proof. unfold exec. by rewrite afterCompile_dependencies. Qed.

(** Running it on what it left changes nothing. *)
Lemma afterCompile_twice (p : plugin) (w : world) (s : store) :
  exec (afterCompile p w) (exec (afterCompile p w) s) = exec (afterCompile p w) s.
Proof.
  unfold exec. rewrite !afterCompile_dependencies. cbn [snd].
  destruct s. unfold with_fileDependencies. cbn. f_equal.
  apply set_eq. intros x. rewrite !elem_of_union. tauto.
Qed.

(** X18.  The [afterCompile] handler is tapped once more by every
    compilation; however many taps have piled up, the hook never fails and
    leaves the store one run of the handler leaves. *)
Theorem piled_up_taps_record_the_same (taps : nat) (p : plugin) (w : world) (s : store) :
  afterCompileHook (S taps) p w s = (Ok tt, exec (afterCompile p w) s).
Proof.
  revert s. induction taps as [|n IH]; intros s.
  - cbn [afterCompileHook]. unfold bind, ret. by rewrite afterCompile_returns.
  - change (afterCompileHook (S (S n)) p w)
      with (afterCompile p w >> afterCompileHook (S n) p w).
    unfold bind. rewrite afterCompile_returns, IH. by rewrite afterCompile_twice.
Qed.
